(** * PubSummarizer exporter: section parsing, the three renderers and the
      export orchestration of [src/exporter.py], embedded in Rocq.

    Python [str] values are modelled by [string]; one [ascii] stands for one
    code point below 256 (the Latin-1 range), on which [str.lower],
    [str.strip] and case-insensitive regular-expression matching act
    character by character as defined below. *)

From Stdlib Require Import String Ascii List Bool Arith NArith Lia.
From Stdlib Require Import Sorted Permutation.
Import ListNotations.
Local Open Scope list_scope.
Local Open Scope string_scope.

(** ** Python string primitives *)

Module Py.

(** The line feed, written [\n] in the source's literals. *)
Definition nl : string := String (ascii_of_nat 10) EmptyString.

(** The double quote, used by the JSON serialiser. *)
Definition dq : string := String (ascii_of_nat 34) EmptyString.

Definition in_range (lo hi n : N) : bool := (N.leb lo n && N.leb n hi)%bool.

(** [str.lower] on one code point: A-Z and the upper-case Latin-1 letters
  (U+00C0..U+00DE without the multiplication sign U+00D7) move up by 32. *)
Definition lower_char (c : ascii) : ascii :=
let n := N_of_ascii c in
if (in_range 65 90 n || (in_range 192 222 n && negb (N.eqb n 215)))%bool
then ascii_of_N (n + 32)
else c.

(** [s.lower()] *)
Fixpoint lower (s : string) : string :=
match s with
| EmptyString => EmptyString
| String c s' => String (lower_char c) (lower s')
end.

(** [c.isspace()]: TAB..CR, the separators FS..US, SPACE, NEL and NBSP. *)
Definition isspace (c : ascii) : bool :=
let n := N_of_ascii c in
(in_range 9 13 n || in_range 28 32 n || N.eqb n 133 || N.eqb n 160)%bool.

(** [s.startswith(p)] *)
Definition startswith (s p : string) : bool := String.prefix p s.

(** [s.lstrip()] *)
Fixpoint lstrip (s : string) : string :=
match s with
| EmptyString => EmptyString
| String c s' => if isspace c then lstrip s' else s
end.

(** [s.rstrip()] *)
Fixpoint rstrip (s : string) : string :=
match s with
| EmptyString => EmptyString
| String c s' =>
    match rstrip s' with
    | EmptyString => if isspace c then EmptyString else String c EmptyString
    | r => String c r
    end
end.

(** [s.strip()] *)
Definition strip (s : string) : string := rstrip (lstrip s).

(** [s.replace(old, new)] for non-empty [old]: occurrences are taken left to
  right without overlap.  [skip] counts the characters of an occurrence
  that are still to be passed over. *)
Fixpoint replace_from (old new : string) (skip : nat) (s : string) : string :=
match s with
| EmptyString => EmptyString
| String c s' =>
    match skip with
    | S k => replace_from old new k s'
    | O =>
        if String.prefix old s
        then new ++ replace_from old new (String.length old - 1) s'
        else String c (replace_from old new 0 s')
    end
end.

Definition replace (old new s : string) : string := replace_from old new 0 s.

(** [s.split(sep)] for a one-character separator, as at both call sites. *)
Fixpoint split (sep : ascii) (s : string) : list string :=
match s with
| EmptyString => [EmptyString]
| String c s' =>
    if Ascii.eqb c sep then EmptyString :: split sep s'
    else match split sep s' with
         | h :: t => String c h :: t
         | [] => [String c EmptyString]
         end
end.

(** [sep.join(parts)] *)
Definition join (sep : string) (parts : list string) : string :=
String.concat sep parts.

(** The pattern [pat] (letters, punctuation) matches at the front of [s]
  under [re.IGNORECASE]: characters are compared after lower-casing. *)
Fixpoint match_icase (pat s : string) : bool :=
match pat, s with
| EmptyString, _ => true
| String p pat', String c s' =>
    (Ascii.eqb (lower_char p) (lower_char c) && match_icase pat' s')%bool
| String _ _, EmptyString => false
end.

(** [re.sub('(?i)' + pat, '', s)] for a literal, non-empty [pat]: every
  non-overlapping match, leftmost first, is deleted. *)
Fixpoint re_sub_icase_from (pat : string) (skip : nat) (s : string) : string :=
match s with
| EmptyString => EmptyString
| String c s' =>
    match skip with
    | S k => re_sub_icase_from pat k s'
    | O =>
        if match_icase pat s
        then re_sub_icase_from pat (String.length pat - 1) s'
        else String c (re_sub_icase_from pat 0 s')
    end
end.

Definition re_sub_icase (pat s : string) : string := re_sub_icase_from pat 0 s.

(** Truth value of an optional string: [None] and [''] are false. *)
Definition truthy (o : option string) : option string :=
match o with
| Some EmptyString => None
| other => other
end.

End Py.

(** ** Data model *)


(** The fields of [sql.Paper] that the exporter reads. *)
Record Paper := mkPaper {
  title : string;
  summary : option string;
  pdf_url : option string
}.

(** [sorted(papers, key=...)]: Python's sort is stable and ascending, which
    fixes its result; insertion from the right, placing an element before
    the first one whose key is not smaller, computes that result. *)
Section Sorted.
Context {A : Type}.
Variable key : A -> string.

Fixpoint insert_by (x : A) (l : list A) : list A :=
  match l with
  | [] => [x]
  | y :: l' =>
      if String.leb (key x) (key y) then x :: l else y :: insert_by x l'
  end.

Definition sorted (l : list A) : list A := fold_right insert_by [] l.
End Sorted.

(** The sort key of all three renderers: [lambda x: x.title.lower()]. *)
Definition title_key (x : Paper) : string := Py.lower (title x).

(** [paper.summary.replace('**', '').replace('__', '')] *)
Definition clean_summary (s : string) : string :=
  Py.replace "__" EmptyString (Py.replace "**" EmptyString s).

(** The candidate sections of a summary: [clean_summary.split('[')]. *)
Definition sections_of (s : string) : list string :=
  Py.split "[" (clean_summary s).

(** ** Effects of the export

    The exporter talks to the store ([sql.Database], not part of this
    file's source), the clock, the file system and the standard output.  A
    program is a tree of such calls; an exception raised by a call or by the
    program ends it. *)

Record exn := mkExn { exn_class : string; exn_msg : string }.

Definition ValueError (msg : string) : exn := mkExn "ValueError" msg.

Section Effects.
(** The store handle and the filter mapping, opaque to the exporter. *)
Variables Db Filters : Type.

Inductive call : Type -> Type :=
| Database (db_url : string) : call Db
    (* Database(db_url) *)
| get_papers (db : Db) (filters : option Filters) : call (list Paper)
    (* db.get_papers(filters) *)
| datetime_now : call string
    (* datetime.now().strftime('%Y-%m-%d %H:%M:%S') *)
| mkdir_parent (output_path : string) : call unit
    (* Path(output_path).parent.mkdir(parents=True, exist_ok=True) *)
| write_text (output_path content : string) : call unit
    (* with open(output_path, 'w', encoding='utf-8') as f: f.write(content) *)
| print (line : string) : call unit.

Inductive prog (A : Type) : Type :=
| Ret (a : A)
| Raise (e : exn)
| Do {X : Type} (c : call X) (k : X -> prog A).

Fixpoint bind {A B : Type} (p : prog A) (f : A -> prog B) : prog B :=
  match p with
  | Ret _ a => f a
  | Raise _ e => Raise B e
  | Do _ c k => Do B c (fun x => bind (k x) f)
  end.

(** A call that has been made, whatever its result type. *)
Inductive event : Type :=
| Ev {X : Type} (c : call X).

(** How the outside world answers a call in state [W]. *)
Definition handler (W : Type) : Type :=
  forall X : Type, call X -> W -> (exn + X) * W.

(** Running a program: the result, the final world and the calls made, in
    order. *)
Fixpoint run {W A : Type} (h : handler W) (p : prog A) (w : W)
    : (exn + A) * W * list event :=
  match p with
  | Ret _ a => (inr a, w, [])
  | Raise _ e => (inl e, w, [])
  | Do _ c k =>
      match h _ c w with
      | (inl e, w') => (inl e, w', [Ev c])
      | (inr x, w') =>
          let '(r, w'', evs) := run h (k x) w' in (r, w'', Ev c :: evs)
      end
  end.

(** The call queries the store. *)
Definition is_query (e : event) : bool :=
  match e with
  | Ev (get_papers _ _) => true
  | _ => false
  end.

(** The call touches the file system. *)
Definition is_file_io (e : event) : bool :=
  match e with
  | Ev (mkdir_parent _) | Ev (write_text _ _) => true
  | _ => false
  end.
End Effects.

Arguments Database {Db Filters} db_url.
Arguments get_papers {Db Filters} db filters.
Arguments datetime_now {Db Filters}.
Arguments mkdir_parent {Db Filters} output_path.
Arguments write_text {Db Filters} output_path content.
Arguments print {Db Filters} line.
Arguments Ret {Db Filters A} a.
Arguments Raise {Db Filters A} e.
Arguments Do {Db Filters A X} c k.
Arguments bind {Db Filters A B} p f.
Arguments Ev {Db Filters X} c.
Arguments run {Db Filters W A} h p w.
Arguments is_query {Db Filters} e.
Arguments is_file_io {Db Filters} e.

Declare Scope prog_scope.
Delimit Scope prog_scope with prog.
Notation "x <- p ;; q" := (bind p (fun x => q))
  (at level 61, p at next level, right associativity) : prog_scope.
Notation "p ;; q" := (bind p (fun _ => q))
  (at level 61, right associativity) : prog_scope.

(** A single call as a program. *)
Definition perform {Db Filters X : Type} (c : call Db Filters X)
    : prog Db Filters X := Do c Ret.

(** The message of the guard of each [export_to_file]. *)
Definition no_papers_msg : string :=
  "No papers found in the database with the given filters".

(** ** Plain-document renderer *)

Module MarkdownExporter.
Import Py.

(** One turn of the loop [for section in sections] of [_format_paper]. *)
Definition format_section (md_text section : string) : string :=
  let section_lower := lower section in
  if startswith section_lower "topics:]" then
    let topics := strip (re_sub_icase "Topics:]" section) in
    md_text ++ ("### Topics" ++ nl ++ nl) ++ (topics ++ nl ++ nl)
  else if startswith section_lower "tl;dr:]" then
    let tldr := strip (re_sub_icase "TL;DR:]" section) in
    md_text ++ ("### TL;DR" ++ nl ++ nl) ++ (tldr ++ nl ++ nl)
  else if startswith section_lower "summary:]" then
    let summary := strip (re_sub_icase "Summary:]" section) in
    md_text ++ ("### Summary" ++ nl ++ nl) ++ (summary ++ nl ++ nl)
  else md_text.

Definition _format_paper (paper : Paper) : string :=
  let md_text := "## " ++ title paper ++ nl ++ nl in
  let md_text :=
    match truthy (summary paper) with
    | Some s => fold_left format_section (sections_of s) md_text
    | None => md_text
    end in
  let md_text :=
    match truthy (pdf_url paper) with
    | Some u => md_text ++ "**Paper URL**: [" ++ u ++ "](" ++ u ++ ")" ++ nl ++ nl
    | None => md_text
    end in
  md_text ++ "---" ++ nl ++ nl.

(** [generate_markdown] once the clock has been read: [now] is the value
    of [datetime.now().strftime('%Y-%m-%d %H:%M:%S')]. *)
Definition generate_markdown_at (now : string) (papers : list Paper)
    (doc_title : string) : string :=
  let papers := sorted title_key papers in
  let md_content := "# " ++ doc_title ++ nl ++ nl in
  let md_content := md_content ++ "*Generated on " ++ now
    ++ " by [PubSummarizer](https://github.com/Logan-Lin/PubSummarizer)*"
    ++ nl ++ nl in
  fold_left (fun md_content paper => md_content ++ _format_paper paper)
    papers md_content.

Section ExportToFile.
Context {Db Filters : Type}.
Local Open Scope prog_scope.

Definition generate_markdown (papers : list Paper) (doc_title : string)
    : prog Db Filters string :=
  now <- perform datetime_now ;;
  Ret (generate_markdown_at now papers doc_title).

Definition export_to_file (db : Db) (output_path : string)
    (filters : option Filters) (doc_title : string)
    : prog Db Filters unit :=
  papers <- perform (get_papers db filters) ;;
  match papers with
  | [] => Raise (ValueError no_papers_msg)
  | _ :: _ =>
      md_content <- generate_markdown papers doc_title ;;
      perform (mkdir_parent output_path) ;;
      perform (write_text output_path md_content)
  end.
End ExportToFile.
End MarkdownExporter.

(** ** Note-app renderer *)

Module ObsidianExporter.
Import Py.

(** U+1F4C4, the only character of the program outside Latin-1, kept as
    the four bytes of its UTF-8 form. *)
Definition page_emoji : string :=
  String (ascii_of_nat 240) (String (ascii_of_nat 159)
    (String (ascii_of_nat 147) (String (ascii_of_nat 132) EmptyString))).

(** The body of [for topic in topic_list]: one hashtag. *)
Definition topic_tag (topic : string) : string :=
  let topic_clean := replace "'" EmptyString (replace " " "-" topic) in
  "#" ++ lower topic_clean.

Definition format_section (md_text section : string) : string :=
  let section_lower := lower section in
  if startswith section_lower "topics:]" then
    let topics := strip (re_sub_icase "Topics:]" section) in
    let topic_list := map strip (split "," topics) in
    let md_text := md_text ++ "**Topics:** " in
    let topic_tags := map topic_tag topic_list in
    md_text ++ join ", " topic_tags ++ nl ++ nl
  else if startswith section_lower "tl;dr:]" then
    let tldr := strip (re_sub_icase "TL;DR:]" section) in
    md_text ++ ("#### TL;DR" ++ nl ++ nl) ++ (tldr ++ nl ++ nl)
  else if startswith section_lower "summary:]" then
    let summary := strip (re_sub_icase "Summary:]" section) in
    md_text ++ ("#### Summary" ++ nl ++ nl) ++ (summary ++ nl ++ nl)
  else md_text.

Definition _format_paper (paper : Paper) : string :=
  let md_text := "---" ++ nl ++ nl in
  let md_text := md_text ++ "### " ++ title paper ++ nl ++ nl in
  let md_text :=
    match truthy (summary paper) with
    | Some s => fold_left format_section (sections_of s) md_text
    | None => md_text
    end in
  match truthy (pdf_url paper) with
  | Some u => md_text ++ page_emoji ++ " [Paper Link](" ++ u ++ ")" ++ nl ++ nl
  | None => md_text
  end.

Definition generate_markdown (papers : list Paper) (doc_title : string)
    : string :=
  let papers := sorted title_key papers in
  let md_content := "---" ++ nl in
  let md_content := md_content ++ "title: " ++ doc_title ++ nl in
  let md_content := md_content ++ "---" ++ nl ++ nl in
  let md_content := md_content
    ++ "*Generated by [PubSummarizer](https://github.com/Insights-Ac/PubSummarizer)*"
    ++ nl ++ nl in
  fold_left (fun md_content paper => md_content ++ _format_paper paper)
    papers md_content.

Section ExportToFile.
Context {Db Filters : Type}.
Local Open Scope prog_scope.

Definition export_to_file (db : Db) (output_path : string)
    (filters : option Filters) (doc_title : string)
    : prog Db Filters unit :=
  papers <- perform (get_papers db filters) ;;
  match papers with
  | [] => Raise (ValueError no_papers_msg)
  | _ :: _ =>
      let md_content := generate_markdown papers doc_title in
      perform (mkdir_parent output_path) ;;
      perform (write_text output_path md_content)
  end.
End ExportToFile.
End ObsidianExporter.

(** ** Browsable-page renderer *)

Module WebExporter.
Import Py.

(** [paper_dict]: the dictionary built per paper, with its five keys in
    insertion order. *)
Record PaperDict := mkDict {
  d_title : string;
  d_pdf_url : option string;
  d_topics : list string;
  d_tldr : string;
  d_summary : string
}.

(** One turn of [for section in sections]: an item assignment on
    [paper_dict], or nothing. *)
Definition assign_section (paper_dict : PaperDict) (section : string)
    : PaperDict :=
  let section_lower := lower section in
  if startswith section_lower "topics:]" then
    let topics := strip (re_sub_icase "Topics:]" section) in
    mkDict (d_title paper_dict) (d_pdf_url paper_dict)
      (map strip (split "," topics))
      (d_tldr paper_dict) (d_summary paper_dict)
  else if startswith section_lower "tl;dr:]" then
    mkDict (d_title paper_dict) (d_pdf_url paper_dict) (d_topics paper_dict)
      (strip (re_sub_icase "TL;DR:]" section))
      (d_summary paper_dict)
  else if startswith section_lower "summary:]" then
    mkDict (d_title paper_dict) (d_pdf_url paper_dict) (d_topics paper_dict)
      (d_tldr paper_dict)
      (strip (re_sub_icase "Summary:]" section))
  else paper_dict.

(** The body of [for paper in papers] in [generate_html]. *)
Definition paper_to_dict (paper : Paper) : PaperDict :=
  let paper_dict := mkDict (title paper) (pdf_url paper) [] EmptyString
                      EmptyString in
  match truthy (summary paper) with
  | Some s => fold_left assign_section (sections_of s) paper_dict
  | None => paper_dict
  end.

Definition papers_data (papers : list Paper) : list PaperDict :=
  map paper_to_dict (sorted title_key papers).

(** *** [json.dumps] with its defaults ([ensure_ascii=True], separators
    [', '] and [': ']) on a list of such dictionaries. *)

Definition hex_digit (n : N) : ascii :=
  if N.ltb n 10 then ascii_of_N (48 + n) else ascii_of_N (87 + n).

Definition json_escape_char (c : ascii) : string :=
  let n := N_of_ascii c in
  if N.eqb n 34 then "\" ++ dq
  else if N.eqb n 92 then "\\"
  else if N.eqb n 10 then "\n"
  else if N.eqb n 13 then "\r"
  else if N.eqb n 9 then "\t"
  else if N.eqb n 8 then "\b"
  else if N.eqb n 12 then "\f"
  else if in_range 32 126 n then String c EmptyString
  else "\u00" ++ String (hex_digit (N.div n 16))
                   (String (hex_digit (N.modulo n 16)) EmptyString).

Fixpoint json_escape (s : string) : string :=
  match s with
  | EmptyString => EmptyString
  | String c s' => json_escape_char c ++ json_escape s'
  end.

Definition json_str (s : string) : string := dq ++ json_escape s ++ dq.

Definition json_opt_str (o : option string) : string :=
  match o with
  | Some s => json_str s
  | None => "null"
  end.

Definition json_list (items : list string) : string :=
  "[" ++ join ", " items ++ "]".

Definition json_key (k : string) : string := dq ++ k ++ dq ++ ": ".

Definition json_dict (d : PaperDict) : string :=
  "{" ++ json_key "title" ++ json_str (d_title d)
  ++ ", " ++ json_key "pdf_url" ++ json_opt_str (d_pdf_url d)
  ++ ", " ++ json_key "topics" ++ json_list (map json_str (d_topics d))
  ++ ", " ++ json_key "tldr" ++ json_str (d_tldr d)
  ++ ", " ++ json_key "summary" ++ json_str (d_summary d) ++ "}".

Definition json_dumps (data : list PaperDict) : string :=
  json_list (map json_dict data).

(** The fixed text of the page template [html_content] around its
    placeholders: [{title}] occurs twice and [{papers_json}] once; the
    [date] argument of [format] has no placeholder. *)
Record page_template := mkTemplate {
  page_head : string;
  page_to_heading : string;
  page_to_data : string;
  page_tail : string
}.

(** [html_content.format(title=..., date=..., papers_json=...)] *)
Definition format_page (html_content : page_template)
    (doc_title papers_json : string) : string :=
  page_head html_content ++ doc_title ++ page_to_heading html_content
  ++ doc_title ++ page_to_data html_content ++ papers_json
  ++ page_tail html_content.

Section ExportToFile.
Context {Db Filters : Type}.
Variable html_content : page_template.
Local Open Scope prog_scope.

Definition generate_html (papers : list Paper) (doc_title : string)
    : prog Db Filters string :=
  let papers_data := papers_data papers in
  _date <- perform datetime_now ;;
  Ret (format_page html_content doc_title (json_dumps papers_data)).

Definition export_to_file (db : Db) (output_path : string)
    (filters : option Filters) (doc_title : string)
    : prog Db Filters unit :=
  papers <- perform (get_papers db filters) ;;
  match papers with
  | [] => Raise (ValueError no_papers_msg)
  | _ :: _ =>
      html <- generate_html papers doc_title ;;
      perform (mkdir_parent output_path) ;;
      perform (write_text output_path html)
  end.
End ExportToFile.
End WebExporter.

(** ** [export_papers] *)

(** The exporter object chosen by the format selector; each holds the store
    handle it was built with. *)
Inductive exporter (Db : Type) : Type :=
| Markdown (db : Db)
| Obsidian (db : Db)
| Web (db : Db).

Arguments Markdown {Db} db.
Arguments Obsidian {Db} db.
Arguments Web {Db} db.

Definition unsupported_msg (format : string) : string :=
  "Unsupported format: " ++ format
  ++ ". Use 'markdown', 'obsidian', or 'html'".

Section ExportPapers.
Context {Db Filters : Type}.
Variable html_content : WebExporter.page_template.
Local Open Scope prog_scope.

(** The chain [if format.lower() == 'markdown': ... else: raise ...]. *)
Definition select_exporter (format : string) (db : Db)
    : prog Db Filters (exporter Db) :=
  if String.eqb (Py.lower format) "markdown" then Ret (Markdown db)
  else if String.eqb (Py.lower format) "obsidian" then Ret (Obsidian db)
  else if String.eqb (Py.lower format) "html" then Ret (Web db)
  else Raise (ValueError (unsupported_msg format)).

(** [exporter.export_to_file(...)], dispatched on the exporter's class. *)
Definition export_to_file (e : exporter Db) (output_path : string)
    (filters : option Filters) (doc_title : string) : prog Db Filters unit :=
  match e with
  | Markdown db =>
      MarkdownExporter.export_to_file db output_path filters doc_title
  | Obsidian db =>
      ObsidianExporter.export_to_file db output_path filters doc_title
  | Web db =>
      WebExporter.export_to_file html_content db output_path filters
        doc_title
  end.

Definition export_papers (db_url output_path format : string)
    (filters : option Filters) (doc_title : string) : prog Db Filters unit :=
  db <- perform (Database db_url) ;;
  exporter <- select_exporter format db ;;
  export_to_file exporter output_path filters doc_title ;;
  perform (print ("Exported papers to " ++ output_path)).
End ExportPapers.

(** ** An in-memory world

    A store that is a list of papers filtered by a predicate, a fixed clock,
    and a file system that records directories ensured and files written.
    It serves to run the programs on concrete inputs. *)

Module Sim.
Record world := mkWorld {
  store : list Paper;
  clock : string;
  dirs : list string;
  files : list (string * string);
  stdout : list string
}.

Definition Db : Type := list Paper.
Definition Filters : Type := Paper -> bool.

Definition handle : handler Db Filters world :=
  fun X c w =>
    match c in call _ _ X return (exn + X) * world with
    | Database _ => (inr (store w), w)
    | get_papers db filters =>
        (inr match filters with
             | Some f => List.filter f db
             | None => db
             end, w)
    | datetime_now => (inr (clock w), w)
    | mkdir_parent output_path =>
        (inr tt, mkWorld (store w) (clock w) (output_path :: dirs w)
                   (files w) (stdout w))
    | write_text output_path content =>
        (inr tt, mkWorld (store w) (clock w) (dirs w)
                   ((output_path, content) :: files w) (stdout w))
    | print line =>
        (inr tt, mkWorld (store w) (clock w) (dirs w) (files w)
                   (stdout w ++ [line])%list)
    end.

Definition empty_template : WebExporter.page_template :=
  WebExporter.mkTemplate "<html>" "</title><h1>" "</h1><script>"
    "</script></html>".
End Sim.

(** ** The three copies of the section loop, seen through one classifier *)

Inductive label : Type := Topics | TLDR | Summary.

(** The lower-case text a section must start with. *)
Definition label_prefix (l : label) : string :=
  match l with
  | Topics => "topics:]"
  | TLDR => "tl;dr:]"
  | Summary => "summary:]"
  end.

(** The pattern handed to [re.sub] for that label. *)
Definition label_pattern (l : label) : string :=
  match l with
  | Topics => "Topics:]"
  | TLDR => "TL;DR:]"
  | Summary => "Summary:]"
  end.

(** The branch that the [if]/[elif] chain takes for a section. *)
Definition classify (section : string) : option label :=
  let section_lower := Py.lower section in
  if Py.startswith section_lower "topics:]" then Some Topics
  else if Py.startswith section_lower "tl;dr:]" then Some TLDR
  else if Py.startswith section_lower "summary:]" then Some Summary
  else None.

Definition label_eqb (a b : label) : bool :=
  match a, b with
  | Topics, Topics | TLDR, TLDR | Summary, Summary => true
  | _, _ => false
  end.

Definition labelled (l : label) (section : string) : bool :=
  match classify section with
  | Some l' => label_eqb l l'
  | None => false
  end.

(** [re.sub(pattern, '', section).strip()] *)
Definition field_value (l : label) (section : string) : string :=
  Py.strip (Py.re_sub_icase (label_pattern l) section).

(** The last section carrying label [l], if any. *)
Fixpoint last_labelled (l : label) (sections : list string) : option string :=
  match sections with
  | [] => None
  | section :: rest =>
      match last_labelled l rest with
      | Some found => Some found
      | None => if labelled l section then Some section else None
      end
  end.

(** Concatenation of rendered pieces. *)
Definition concat_all (pieces : list string) : string :=
  fold_right String.append EmptyString pieces.

(** [s[n:]] *)
Fixpoint drop (n : nat) (s : string) : string :=
  match n, s with
  | O, _ => s
  | S n', String _ s' => drop n' s'
  | S _, EmptyString => EmptyString
  end.

(** [c in s] for a character [c]. *)
Fixpoint contains_char (c : ascii) (s : string) : bool :=
  match s with
  | EmptyString => false
  | String c' s' => (Ascii.eqb c' c || contains_char c s')%bool
  end.


(** Number of positions of [s] at which [pat] starts. *)
Fixpoint occurrences (pat s : string) : nat :=
  match s with
  | EmptyString => 0
  | String _ s' => (if String.prefix pat s then 1 else 0) + occurrences pat s'
  end.

(** What the plain-document loop appends for one section. *)
Definition md_heading (l : label) : string :=
  match l with
  | Topics => "### Topics"
  | TLDR => "### TL;DR"
  | Summary => "### Summary"
  end.

Definition md_block (section : string) : string :=
  match classify section with
  | Some l => md_heading l ++ Py.nl ++ Py.nl ++ field_value l section
              ++ Py.nl ++ Py.nl
  | None => EmptyString
  end.

Definition md_url_line (u : option string) : string :=
  match Py.truthy u with
  | Some u => "**Paper URL**: [" ++ u ++ "](" ++ u ++ ")" ++ Py.nl ++ Py.nl
  | None => EmptyString
  end.

(** The slug of the specification: spaces become hyphens, apostrophes go,
    the rest is lower-cased, character by character. *)
Fixpoint slug (topic : string) : string :=
  match topic with
  | EmptyString => EmptyString
  | String c rest =>
      if Ascii.eqb c " " then String "-" (slug rest)
      else if Ascii.eqb c "'" then slug rest
      else String (Py.lower_char c) (slug rest)
  end.

(** What the note-app loop appends for one section. *)
Definition obsidian_block (section : string) : string :=
  match classify section with
  | Some Topics =>
      "**Topics:** "
      ++ Py.join ", "
           (map (fun t => "#" ++ slug t)
              (map Py.strip (Py.split "," (field_value Topics section))))
      ++ Py.nl ++ Py.nl
  | Some TLDR => "#### TL;DR" ++ Py.nl ++ Py.nl ++ field_value TLDR section
                 ++ Py.nl ++ Py.nl
  | Some Summary => "#### Summary" ++ Py.nl ++ Py.nl
                    ++ field_value Summary section ++ Py.nl ++ Py.nl
  | None => EmptyString
  end.

Definition obsidian_url_line (u : option string) : string :=
  match Py.truthy u with
  | Some u => ObsidianExporter.page_emoji ++ " [Paper Link](" ++ u ++ ")"
              ++ Py.nl ++ Py.nl
  | None => EmptyString
  end.

(** The item assignment the browsable-page loop makes for one section. *)
Definition web_assign (d : WebExporter.PaperDict) (section : string)
    : WebExporter.PaperDict :=
  match classify section with
  | Some Topics =>
      WebExporter.mkDict (WebExporter.d_title d) (WebExporter.d_pdf_url d)
        (map Py.strip (Py.split "," (field_value Topics section)))
        (WebExporter.d_tldr d) (WebExporter.d_summary d)
  | Some TLDR =>
      WebExporter.mkDict (WebExporter.d_title d) (WebExporter.d_pdf_url d)
        (WebExporter.d_topics d) (field_value TLDR section)
        (WebExporter.d_summary d)
  | Some Summary =>
      WebExporter.mkDict (WebExporter.d_title d) (WebExporter.d_pdf_url d)
        (WebExporter.d_topics d) (WebExporter.d_tldr d)
        (field_value Summary section)
  | None => d
  end.


(** The order of the sort key. *)
Definition title_le (a b : Paper) : Prop :=
  String.leb (title_key a) (title_key b) = true.

(** The plain-document block of a section when the subsections of the labels
    in [absent] are left out. *)
Definition md_block_without (absent : label -> bool) (section : string)
    : string :=
  match classify section with
  | Some l => if absent l then EmptyString
              else md_heading l ++ Py.nl ++ Py.nl ++ field_value l section
                   ++ Py.nl ++ Py.nl
  | None => EmptyString
  end.


(** The candidate sections a renderer loops over for a paper: those of its
    summary when [if paper.summary:] holds, none otherwise. *)
Definition paper_sections (paper : Paper) : list string :=
  match Py.truthy (summary paper) with
  | Some s => sections_of s
  | None => []
  end.

(** The first character of [s] is white space. *)
Definition first_is_space (s : string) : bool :=
  match s with
  | EmptyString => false
  | String c _ => Py.isspace c
  end.

(** The last character of [s] is white space. *)
Fixpoint last_is_space (s : string) : bool :=
  match s with
  | EmptyString => false
  | String c EmptyString => Py.isspace c
  | String _ rest => last_is_space rest
  end.

(** The spec's pair of records: one without summary and URL, one with a
    Topics section only. *)
Definition alpha_paper : Paper := mkPaper "Alpha Paper" None None.

Definition topics_only_paper : Paper :=
  mkPaper "Beta Paper" (Some "[Topics:] nlp") (Some "http://x/b.pdf").

(** A page with one paper, for the search box. *)
Definition alpha_page : list WebExporter.PaperDict :=
  WebExporter.papers_data [alpha_paper].

(** Papers used as concrete inputs below. *)
Definition paper_two_tldr : Paper :=
  mkPaper "P" (Some "[TL;DR:] first[TL;DR:] second") None.

Definition paper_last_tldr : Paper :=
  mkPaper "P" (Some "[TL;DR:] second") None.

Definition paper_bare_label : Paper :=
  mkPaper "P" (Some "Summary:] hello") None.

Definition paper_empty_tldr : Paper := mkPaper "P" (Some "[TL;DR:]") None.


Definition paper_empty_topics : Paper := mkPaper "P" (Some "[Topics:]") None.

Definition paper_slugs : Paper :=
  mkPaper "P" (Some "[Topics:] Graph Neural Networks, Alice's Method") None.

(** ** The script of the page template

    [filterPapers] and [createPaperCard] are the two pure functions of the
    script that [html_content] embeds (doubled braces of the Python literal
    read as single ones).  [papersData] is the array that [json_dumps]
    serialised; the three check boxes that [createPaperCard] reads from the
    document are its first three arguments. *)

Module Page.
Import Py WebExporter.

(** [s.toLowerCase()], which agrees with [str.lower] below U+0100. *)
Definition toLowerCase (s : string) : string := lower s.

(** [s.includes(sub)] *)
Fixpoint includes (s sub : string) : bool :=
  (String.prefix sub s
   || match s with
      | EmptyString => false
      | String _ s' => includes s' sub
      end)%bool.

Definition filterPapers (papersData : list PaperDict) (searchText : string)
    : list PaperDict :=
  match searchText with
  | EmptyString => papersData
  | _ =>
      let searchText := toLowerCase searchText in
      filter
        (fun paper =>
           let titleMatch := includes (toLowerCase (d_title paper)) searchText in
           let topicsMatch :=
             existsb (fun topic => includes (toLowerCase topic) searchText)
               (d_topics paper) in
           let tldrMatch := includes (toLowerCase (d_tldr paper)) searchText in
           let summaryMatch :=
             includes (toLowerCase (d_summary paper)) searchText in
           (titleMatch || topicsMatch || tldrMatch || summaryMatch)%bool)
        papersData
  end.

(** A run of [n] spaces of the script's template literals. *)
Fixpoint indent (n : nat) : string :=
  match n with
  | O => EmptyString
  | S n' => String " " (indent n')
  end.

Definition createPaperCard (showTopics showTldr showSummary : bool)
    (paper : PaperDict) : string :=
  let topicsHtml :=
    if (showTopics && Nat.ltb 0 (List.length (d_topics paper)))%bool
    then "<div class=" ++ dq ++ "mb-3" ++ dq ++ ">" ++ nl ++ indent 21
         ++ "<div class=" ++ dq ++ "d-flex gap-2 flex-wrap" ++ dq ++ ">"
         ++ nl ++ indent 23
         ++ join EmptyString
              (map (fun topic =>
                      "<span class=" ++ dq ++ "badge text-bg-info" ++ dq ++ ">"
                      ++ topic ++ "</span>")
                 (d_topics paper))
         ++ nl ++ indent 21 ++ "</div>" ++ nl ++ indent 19 ++ "</div>"
    else EmptyString in
  let tldrHtml :=
    match (if showTldr then truthy (Some (d_tldr paper)) else None) with
    | Some tldr =>
        "<div class=" ++ dq ++ "mb-3" ++ dq ++ ">" ++ nl ++ indent 21
        ++ "<h3 class=" ++ dq ++ "h5" ++ dq ++ ">TL;DR</h3>" ++ nl ++ indent 21
        ++ "<p class=" ++ dq ++ "card-text" ++ dq ++ ">" ++ tldr
        ++ "</p>" ++ nl ++ indent 19 ++ "</div>"
    | None => EmptyString
    end in
  let summaryHtml :=
    match (if showSummary then truthy (Some (d_summary paper)) else None) with
    | Some summary =>
        "<div class=" ++ dq ++ "mb-3" ++ dq ++ ">" ++ nl ++ indent 21
        ++ "<h3 class=" ++ dq ++ "h5" ++ dq ++ ">Summary</h3>" ++ nl
        ++ indent 21
        ++ "<p class=" ++ dq ++ "card-text" ++ dq ++ ">" ++ summary
        ++ "</p>" ++ nl ++ indent 19 ++ "</div>"
    | None => EmptyString
    end in
  let urlHtml :=
    match truthy (d_pdf_url paper) with
    | Some pdf_url =>
        "<p class=" ++ dq ++ "card-text" ++ dq ++ "><a href=" ++ dq ++ pdf_url
        ++ dq ++ " class=" ++ dq ++ "btn btn-outline-primary btn-sm" ++ dq
        ++ ">Download Paper</a></p>"
    | None => EmptyString
    end in
  nl ++ indent 16
  ++ "<div class=" ++ dq ++ "col-sm-12 col-lg-6 col-xl-4 mb-4" ++ dq ++ ">"
  ++ nl ++ indent 20 ++ "<div class=" ++ dq ++ "card shadow-sm" ++ dq ++ ">"
  ++ nl ++ indent 24 ++ "<div class=" ++ dq ++ "card-body" ++ dq ++ ">"
  ++ nl ++ indent 28 ++ "<h3 class=" ++ dq ++ "card-title h4" ++ dq ++ ">"
  ++ d_title paper ++ "</h3>" ++ nl ++ indent 28
  ++ topicsHtml ++ nl ++ indent 28
  ++ tldrHtml ++ nl ++ indent 28
  ++ summaryHtml ++ nl ++ indent 28
  ++ urlHtml
  ++ nl ++ indent 24 ++ "</div>" ++ nl ++ indent 20 ++ "</div>"
  ++ nl ++ indent 16 ++ "</div>" ++ nl ++ indent 12.
End Page.

(** ** Further vocabulary for the properties *)

(** The kind of a call, with the path it concerns. *)
Inductive call_kind : Type :=
| KDatabase
| KQuery
| KClock
| KMkdir (output_path : string)
| KWrite (output_path : string)
| KPrint.

Definition kind_of {Db Filters : Type} (e : event Db Filters) : call_kind :=
  match e with
  | Ev (Database _) => KDatabase
  | Ev (get_papers _ _) => KQuery
  | Ev datetime_now => KClock
  | Ev (mkdir_parent output_path) => KMkdir output_path
  | Ev (write_text output_path _) => KWrite output_path
  | Ev (print _) => KPrint
  end.

(** Every character of [s] satisfies [p]. *)
Fixpoint all_chars (p : ascii -> bool) (s : string) : bool :=
  match s with
  | EmptyString => true
  | String c s' => (p c && all_chars p s')%bool
  end.

(** Printable ASCII, U+0020 to U+007E. *)
Definition printable (c : ascii) : bool := Py.in_range 32 126 (N_of_ascii c).

(** The value of a hexadecimal digit. *)
Definition hex_value (c : ascii) : N :=
  let n := N_of_ascii c in
  if Py.in_range 48 57 n then n - 48 else n - 87.

(** Reading back what [json_escape] writes: the escapes of [json.dumps]
    decoded as a JSON parser does. *)
Fixpoint json_unescape (s : string) : string :=
  match s with
  | EmptyString => EmptyString
  | String c rest =>
      if Ascii.eqb c "\" then
        match rest with
        | String "u" (String _ (String _ (String h (String l rest')))) =>
            String (ascii_of_N (16 * hex_value h + hex_value l))
              (json_unescape rest')
        | String e rest' =>
            String (if Ascii.eqb e "n" then ascii_of_nat 10
                    else if Ascii.eqb e "r" then ascii_of_nat 13
                    else if Ascii.eqb e "t" then ascii_of_nat 9
                    else if Ascii.eqb e "b" then ascii_of_nat 8
                    else if Ascii.eqb e "f" then ascii_of_nat 12
                    else e)
              (json_unescape rest')
        | EmptyString => EmptyString
        end
      else String c (json_unescape rest)
  end.

(** The calls of a complete export, in order; the clock is read by the
    plain-document and the browsable-page exporters only. *)
Definition call_order (output_path : string) (with_clock : bool)
    : list call_kind :=
  ([KDatabase; KQuery] ++ (if with_clock then [KClock] else [])
   ++ [KMkdir output_path; KWrite output_path; KPrint])%list.

(** The card of a paper that shows a title and, if there is one, a link. *)
Definition bare_card (t : string) (u : option string) : string :=
  Py.nl ++ Page.indent 16
  ++ "<div class=" ++ Py.dq ++ "col-sm-12 col-lg-6 col-xl-4 mb-4" ++ Py.dq
  ++ ">" ++ Py.nl ++ Page.indent 20
  ++ "<div class=" ++ Py.dq ++ "card shadow-sm" ++ Py.dq ++ ">"
  ++ Py.nl ++ Page.indent 24
  ++ "<div class=" ++ Py.dq ++ "card-body" ++ Py.dq ++ ">"
  ++ Py.nl ++ Page.indent 28
  ++ "<h3 class=" ++ Py.dq ++ "card-title h4" ++ Py.dq ++ ">" ++ t ++ "</h3>"
  ++ Py.nl ++ Page.indent 28 ++ Py.nl ++ Page.indent 28
  ++ Py.nl ++ Page.indent 28 ++ Py.nl ++ Page.indent 28
  ++ match Py.truthy u with
     | Some pdf_url =>
         "<p class=" ++ Py.dq ++ "card-text" ++ Py.dq ++ "><a href=" ++ Py.dq
         ++ pdf_url ++ Py.dq ++ " class=" ++ Py.dq
         ++ "btn btn-outline-primary btn-sm" ++ Py.dq
         ++ ">Download Paper</a></p>"
     | None => EmptyString
     end
  ++ Py.nl ++ Page.indent 24 ++ "</div>" ++ Py.nl ++ Page.indent 20
  ++ "</div>" ++ Py.nl ++ Page.indent 16 ++ "</div>" ++ Py.nl
  ++ Page.indent 12.

(** The in-memory world with a file system that refuses every change:
    creating a directory and writing a file raise. *)
Definition read_only_handle : handler Sim.Db Sim.Filters Sim.world :=
  fun X c w =>
    match c in call _ _ X return (exn + X) * Sim.world with
    | mkdir_parent output_path => (inl (mkExn "PermissionError" output_path), w)
    | write_text output_path _ => (inl (mkExn "PermissionError" output_path), w)
    | other => Sim.handle _ other w
    end.

(** A paper of the store of [world_one_paper]. *)
Definition paper_a : Paper := mkPaper "A" (Some "[TL;DR:] x") None.

(** Worlds used as concrete inputs below: one paper in the store, nothing
    on disk. *)
Definition world_one_paper : Sim.world :=
  Sim.mkWorld [mkPaper "A" (Some "[TL;DR:] x") None] "2024-01-01 00:00:00"
    [] [] [].

(** A filter that matches no record. *)
Definition match_none : option Sim.Filters := Some (fun _ => false).

(** * Properties *)

(** ** Strings *)

Lemma append_nil_r (s : string) : s ++ EmptyString = s.
Proof. induction s as [|c s IH]; simpl; [reflexivity | now rewrite IH]. Qed.

Lemma append_assoc (a b c : string) : (a ++ b) ++ c = a ++ (b ++ c).
Proof. induction a as [|x a IH]; simpl; [reflexivity | now rewrite IH]. Qed.

Lemma length_append (a b : string) :
  String.length (a ++ b) = String.length a + String.length b.
Proof. induction a as [|x a IH]; simpl; [reflexivity | now rewrite IH]. Qed.

Lemma length_lower (s : string) : String.length (Py.lower s) = String.length s.
Proof. induction s as [|c s IH]; simpl; [reflexivity | now rewrite IH]. Qed.

Lemma lower_append (a b : string) :
  Py.lower (a ++ b) = Py.lower a ++ Py.lower b.
Proof. induction a as [|x a IH]; simpl; [reflexivity | now rewrite IH]. Qed.

Lemma drop_append (a b : string) : drop (String.length a) (a ++ b) = b.
Proof. induction a as [|x a IH]; simpl; [now destruct b | exact IH]. Qed.

Lemma contains_char_append (c : ascii) (a b : string) :
  contains_char c (a ++ b) = (contains_char c a || contains_char c b)%bool.
Proof.
  induction a as [|x a IH]; simpl; [reflexivity|].
  rewrite IH. now rewrite orb_assoc.
Qed.

Lemma prefix_append (p rest : string) : String.prefix p (p ++ rest) = true.
Proof.
  induction p as [|x p IH]; simpl; [now destruct rest|].
  destruct (ascii_dec x x); [exact IH | congruence].
Qed.

Lemma prefix_head_neq (c x : ascii) (p s : string) :
  Ascii.eqb x c = false -> String.prefix (String c p) (String x s) = false.
Proof.
  intros H. simpl. destruct (ascii_dec c x) as [->|]; [|reflexivity].
  now rewrite Ascii.eqb_refl in H.
Qed.

(** Pieces appended one after the other by a loop. *)
Lemma fold_left_append {A : Type} (f : A -> string) (l : list A) (acc : string) :
  fold_left (fun acc x => acc ++ f x) l acc = acc ++ concat_all (map f l).
Proof.
  revert acc. induction l as [|x l IH]; intros acc; simpl.
  - now rewrite append_nil_r.
  - rewrite IH. now rewrite append_assoc.
Qed.

Lemma fold_left_ext {A B : Type} (f g : A -> B -> A) (l : list B) (a : A) :
  (forall a b, f a b = g a b) -> fold_left f l a = fold_left g l a.
Proof.
  intros H. revert a. induction l as [|x l IH]; intros a; simpl;
    [reflexivity | now rewrite H, IH].
Qed.

(** ** Matching and deleting a label *)

Lemma match_icase_prefix (pat s : string) :
  Py.match_icase pat s = String.prefix (Py.lower pat) (Py.lower s).
Proof.
  revert s. induction pat as [|p pat IH]; intros [|c s]; simpl; try reflexivity.
  destruct (ascii_dec (Py.lower_char p) (Py.lower_char c)) as [e|n].
  - rewrite e, Ascii.eqb_refl. simpl. apply IH.
  - apply Ascii.eqb_neq in n. now rewrite n.
Qed.

(** A section takes the branch of label [l] exactly when the label's pattern
    matches at its front. *)
Lemma classify_match (l : label) (section : string) :
  classify section = Some l -> Py.match_icase (label_pattern l) section = true.
Proof.
  unfold classify, Py.startswith. rewrite !match_icase_prefix.
  destruct l; simpl Py.lower at 1;
    repeat match goal with
           | |- context [if ?b then _ else _] => destruct b eqn:?
           end; intros E; try discriminate; auto.
Qed.

Lemma re_sub_icase_from_drop (pat : string) (k : nat) (s : string) :
  Py.re_sub_icase_from pat k s = Py.re_sub_icase_from pat 0 (drop k s).
Proof.
  revert k. induction s as [|c s IH]; intros [|k]; try reflexivity.
  simpl Py.re_sub_icase_from at 1. simpl drop. apply IH.
Qed.

(** Deleting the pattern from a section it starts deletes that prefix and
    goes on deleting in what follows. *)
Lemma re_sub_icase_matched (pat section : string) :
  pat <> EmptyString ->
  Py.match_icase pat section = true ->
  Py.re_sub_icase pat section
  = Py.re_sub_icase pat (drop (String.length pat) section).
Proof.
  intros Hne Hm. unfold Py.re_sub_icase.
  destruct section as [|c s].
  - destruct pat; [congruence | discriminate].
  - simpl Py.re_sub_icase_from at 1. rewrite Hm.
    rewrite re_sub_icase_from_drop.
    destruct pat as [|p pat]; [congruence|].
    replace (String.length (String p pat) - 1) with (String.length pat)
      by (simpl; lia).
    reflexivity.
Qed.


(** ** The section loops *)

Ltac split_branches :=
  repeat match goal with
         | |- context [if ?b then _ else _] => destruct b
         end.

Lemma md_format_section_block (md_text section : string) :
  MarkdownExporter.format_section md_text section = md_text ++ md_block section.
Proof.
  unfold MarkdownExporter.format_section, md_block, classify, field_value.
  split_branches; cbn [label_pattern md_heading];
    rewrite ?append_assoc, ?append_nil_r; reflexivity.
Qed.

Lemma prefix_empty (s : string) : String.prefix EmptyString s = true.
Proof. now destruct s. Qed.

(** [replace] of a one-character [old] looks at one character at a time. *)
Lemma replace_one_char (c x : ascii) (new s : string) :
  Py.replace_from (String c EmptyString) new 0 (String x s)
  = if Ascii.eqb x c
    then new ++ Py.replace_from (String c EmptyString) new 0 s
    else String x (Py.replace_from (String c EmptyString) new 0 s).
Proof.
  cbn [Py.replace_from String.length Nat.sub].
  destruct (Ascii.eqb x c) eqn:E.
  - apply Ascii.eqb_eq in E. subst x. cbn [String.prefix].
    destruct (ascii_dec c c); [|congruence]. now rewrite prefix_empty.
  - now rewrite prefix_head_neq.
Qed.

(** The two [replace] calls and [lower] of the note-app renderer compute the
    slug. *)
Lemma topic_tag_slug (topic : string) :
  ObsidianExporter.topic_tag topic = "#" ++ slug topic.
Proof.
  unfold ObsidianExporter.topic_tag, Py.replace. f_equal.
  induction topic as [|c t IH]; [reflexivity|].
  rewrite replace_one_char. cbn [slug].
  destruct (Ascii.eqb c " ") eqn:Hsp.
  - cbn [String.append]. rewrite replace_one_char.
    cbn [Ascii.eqb Bool.eqb Py.lower]. f_equal. exact IH.
  - rewrite replace_one_char. destruct (Ascii.eqb c "'") eqn:Hap.
    + cbn [String.append]. exact IH.
    + cbn [Py.lower]. f_equal. exact IH.
Qed.

Lemma obsidian_format_section_block (md_text section : string) :
  ObsidianExporter.format_section md_text section
  = md_text ++ obsidian_block section.
Proof.
  unfold ObsidianExporter.format_section, obsidian_block, classify, field_value.
  split_branches; cbn [label_pattern];
    rewrite ?append_assoc, ?append_nil_r; try reflexivity.
  do 3 f_equal. rewrite !map_map. f_equal. apply map_ext. intros t.
  apply topic_tag_slug.
Qed.

Lemma web_assign_section (d : WebExporter.PaperDict) (section : string) :
  WebExporter.assign_section d section = web_assign d section.
Proof.
  unfold WebExporter.assign_section, web_assign, classify, field_value.
  split_branches; reflexivity.
Qed.

Lemma sections_of_empty : sections_of EmptyString = [EmptyString].
Proof. reflexivity. Qed.

(** The plain-document section of a paper with a summary: its heading, one
    block per candidate section, the URL line and the rule. *)
Lemma md_format_paper_blocks (t s : string) (u : option string) :
  MarkdownExporter._format_paper (mkPaper t (Some s) u)
  = "## " ++ t ++ Py.nl ++ Py.nl
    ++ concat_all (map md_block (sections_of s))
    ++ md_url_line u ++ "---" ++ Py.nl ++ Py.nl.
Proof.
  unfold MarkdownExporter._format_paper, md_url_line. cbn [title summary pdf_url].
  assert (E : match Py.truthy (Some s) with
              | Some s0 => fold_left MarkdownExporter.format_section
                             (sections_of s0) ("## " ++ t ++ Py.nl ++ Py.nl)
              | None => "## " ++ t ++ Py.nl ++ Py.nl
              end
              = ("## " ++ t ++ Py.nl ++ Py.nl)
                ++ concat_all (map md_block (sections_of s))).
  { destruct s as [|c s]; cbn [Py.truthy].
    - rewrite sections_of_empty. cbn. now rewrite !append_nil_r.
    - rewrite (fold_left_ext _ (fun acc x => acc ++ md_block x))
        by apply md_format_section_block.
      apply fold_left_append. }
  rewrite E. destruct (Py.truthy u);
    rewrite ?append_assoc, ?append_nil_r; cbn; rewrite ?append_assoc;
    reflexivity.
Qed.

Lemma obsidian_format_paper_blocks (t s : string) (u : option string) :
  ObsidianExporter._format_paper (mkPaper t (Some s) u)
  = "---" ++ Py.nl ++ Py.nl ++ "### " ++ t ++ Py.nl ++ Py.nl
    ++ concat_all (map obsidian_block (sections_of s))
    ++ obsidian_url_line u.
Proof.
  unfold ObsidianExporter._format_paper, obsidian_url_line.
  cbn [title summary pdf_url].
  set (head := ("---" ++ Py.nl ++ Py.nl) ++ "### " ++ t ++ Py.nl ++ Py.nl).
  assert (E : match Py.truthy (Some s) with
              | Some s0 => fold_left ObsidianExporter.format_section
                             (sections_of s0) head
              | None => head
              end
              = head ++ concat_all (map obsidian_block (sections_of s))).
  { destruct s as [|c s]; cbn [Py.truthy].
    - rewrite sections_of_empty. cbn. now rewrite !append_nil_r.
    - rewrite (fold_left_ext _ (fun acc x => acc ++ obsidian_block x))
        by apply obsidian_format_section_block.
      apply fold_left_append. }
  rewrite E. subst head. destruct (Py.truthy u);
    rewrite ?append_assoc, ?append_nil_r; cbn; rewrite ?append_assoc;
    reflexivity.
Qed.

(** Item assignments accumulate so that, per key, the last labelled section
    decides; a key never assigned keeps its initial value. *)
Lemma web_fold_last (sections : list string) (d : WebExporter.PaperDict) :
  fold_left web_assign sections d
  = WebExporter.mkDict (WebExporter.d_title d) (WebExporter.d_pdf_url d)
      match last_labelled Topics sections with
      | Some sec => map Py.strip (Py.split "," (field_value Topics sec))
      | None => WebExporter.d_topics d
      end
      match last_labelled TLDR sections with
      | Some sec => field_value TLDR sec
      | None => WebExporter.d_tldr d
      end
      match last_labelled Summary sections with
      | Some sec => field_value Summary sec
      | None => WebExporter.d_summary d
      end.
Proof.
  revert d. induction sections as [|sec rest IH]; intros d.
  - now destruct d.
  - cbn [fold_left last_labelled]. rewrite IH.
    destruct (last_labelled Topics rest), (last_labelled TLDR rest),
      (last_labelled Summary rest);
      unfold web_assign, labelled; destruct (classify sec) as [[]|];
      reflexivity.
Qed.

Lemma web_paper_to_dict_fold (t s : string) (u : option string) :
  WebExporter.paper_to_dict (mkPaper t (Some s) u)
  = fold_left web_assign (sections_of s)
      (WebExporter.mkDict t u [] EmptyString EmptyString).
Proof.
  unfold WebExporter.paper_to_dict. cbn [title summary pdf_url].
  destruct s as [|c s]; [reflexivity|]. cbn [Py.truthy].
  apply fold_left_ext, web_assign_section.
Qed.

Lemma last_labelled_none (l : label) (sections : list string) :
  last_labelled l sections = None <->
  (forall sec, In sec sections -> labelled l sec = false).
Proof.
  induction sections as [|sec rest IH]; cbn [last_labelled].
  - split; [intros _ x [] | reflexivity].
  - destruct (last_labelled l rest) as [found|].
    + split; [discriminate|]. intros H.
      assert (Some found = None) as E
        by (apply IH; intros x Hx; apply H; now right).
      discriminate.
    + destruct (labelled l sec) eqn:E.
      * split; [discriminate|]. intros H. rewrite (H sec) in E by now left.
        discriminate.
      * split; [|reflexivity]. intros _ x [<-|Hx]; [exact E|].
        now apply (proj1 IH).
Qed.

(** ** Summaries without an opening bracket *)

Lemma contains_char_replace_from (c : ascii) (old : string) (k : nat)
    (s : string) :
  contains_char c s = false ->
  contains_char c (Py.replace_from old EmptyString k s) = false.
Proof.
  revert k. induction s as [|x s IH]; intros k H; [reflexivity|].
  cbn [contains_char] in H. apply orb_false_elim in H as [Hx Hs].
  cbn [Py.replace_from]. destruct k as [|k]; [|now apply IH].
  destruct (String.prefix old (String x s)).
  - cbn [String.append]. now apply IH.
  - cbn [contains_char]. rewrite Hx. now apply IH.
Qed.

Lemma contains_char_clean_summary (c : ascii) (s : string) :
  contains_char c s = false -> contains_char c (clean_summary s) = false.
Proof.
  intros H. unfold clean_summary, Py.replace.
  now do 2 apply contains_char_replace_from.
Qed.

Lemma split_absent (sep : ascii) (s : string) :
  contains_char sep s = false -> Py.split sep s = [s].
Proof.
  induction s as [|x s IH]; intros H; [reflexivity|].
  cbn [contains_char] in H. apply orb_false_elim in H as [Hx Hs].
  cbn [Py.split]. rewrite Hx, (IH Hs). reflexivity.
Qed.

Lemma sections_of_no_bracket (s : string) :
  contains_char "[" s = false -> sections_of s = [clean_summary s].
Proof.
  intros H. unfold sections_of. apply split_absent.
  now apply contains_char_clean_summary.
Qed.

Lemma md_format_paper_no_summary (t : string) (u : option string) :
  MarkdownExporter._format_paper (mkPaper t None u)
  = "## " ++ t ++ Py.nl ++ Py.nl ++ md_url_line u ++ "---" ++ Py.nl ++ Py.nl.
Proof.
  unfold MarkdownExporter._format_paper, md_url_line.
  cbn [title summary pdf_url Py.truthy].
  destruct (Py.truthy u); rewrite ?append_assoc; cbn;
    rewrite ?append_assoc; reflexivity.
Qed.

Lemma obsidian_format_paper_no_summary (t : string) (u : option string) :
  ObsidianExporter._format_paper (mkPaper t None u)
  = "---" ++ Py.nl ++ Py.nl ++ "### " ++ t ++ Py.nl ++ Py.nl
    ++ obsidian_url_line u.
Proof.
  unfold ObsidianExporter._format_paper, obsidian_url_line.
  cbn [title summary pdf_url Py.truthy].
  destruct (Py.truthy u); rewrite ?append_assoc, ?append_nil_r; cbn;
    rewrite ?append_assoc; reflexivity.
Qed.

(** ** Duplicate labels *)

(** C1 (amended).  In the browsable-page variant the last section carrying a
    label decides the value of its key, so each per-paper record has exactly
    one topics, tldr and summary value.  The plain-document and note-app
    variants render every candidate section in turn, each labelled one as a
    subsection of its own, so a label carried by several sections yields
    several subsections. *)
Theorem last_label_wins_in_page_all_rendered_in_documents
    (t s : string) (u : option string) :
  WebExporter.paper_to_dict (mkPaper t (Some s) u)
  = WebExporter.mkDict t u
      match last_labelled Topics (sections_of s) with
      | Some sec => map Py.strip (Py.split "," (field_value Topics sec))
      | None => []
      end
      match last_labelled TLDR (sections_of s) with
      | Some sec => field_value TLDR sec
      | None => EmptyString
      end
      match last_labelled Summary (sections_of s) with
      | Some sec => field_value Summary sec
      | None => EmptyString
      end
  /\ MarkdownExporter._format_paper (mkPaper t (Some s) u)
     = "## " ++ t ++ Py.nl ++ Py.nl
       ++ concat_all (map md_block (sections_of s))
       ++ md_url_line u ++ "---" ++ Py.nl ++ Py.nl
  /\ ObsidianExporter._format_paper (mkPaper t (Some s) u)
     = "---" ++ Py.nl ++ Py.nl ++ "### " ++ t ++ Py.nl ++ Py.nl
       ++ concat_all (map obsidian_block (sections_of s))
       ++ obsidian_url_line u.
Proof.
  split; [|split].
  - rewrite web_paper_to_dict_fold. apply web_fold_last.
  - apply md_format_paper_blocks.
  - apply obsidian_format_paper_blocks.
Qed.

(** C1, as stated, fails for the two document variants: a summary with two
    TL;DR sections is rendered with two TL;DR subsections, the first section's
    text included, and differs from the rendering of the last section
    alone. *)
Lemma two_tldr_sections_rendered_twice :
  MarkdownExporter._format_paper paper_two_tldr
  = "## P" ++ Py.nl ++ Py.nl
    ++ "### TL;DR" ++ Py.nl ++ Py.nl ++ "first" ++ Py.nl ++ Py.nl
    ++ "### TL;DR" ++ Py.nl ++ Py.nl ++ "second" ++ Py.nl ++ Py.nl
    ++ "---" ++ Py.nl ++ Py.nl
  /\ occurrences "### TL;DR" (MarkdownExporter._format_paper paper_two_tldr) = 2
  /\ MarkdownExporter._format_paper paper_two_tldr
     <> MarkdownExporter._format_paper paper_last_tldr
  /\ occurrences "#### TL;DR" (ObsidianExporter._format_paper paper_two_tldr) = 2
  /\ ObsidianExporter._format_paper paper_two_tldr
     <> ObsidianExporter._format_paper paper_last_tldr.
Proof.
  repeat split; try (vm_compute; reflexivity);
    apply String.eqb_neq; vm_compute; reflexivity.
Qed.

(** ** Summaries without an opening bracket *)

(** C2 (amended).  A summary with no opening bracket that, once its emphasis
    markers are removed, does not itself begin with one of the three labels
    parses to all-empty fields, and its paper is rendered as a paper without
    summary. *)
Theorem no_bracket_no_leading_label_parses_empty
    (t s : string) (u : option string) :
  contains_char "[" s = false ->
  classify (clean_summary s) = None ->
  WebExporter.paper_to_dict (mkPaper t (Some s) u)
  = WebExporter.mkDict t u [] EmptyString EmptyString
  /\ MarkdownExporter._format_paper (mkPaper t (Some s) u)
     = MarkdownExporter._format_paper (mkPaper t None u)
  /\ ObsidianExporter._format_paper (mkPaper t (Some s) u)
     = ObsidianExporter._format_paper (mkPaper t None u).
Proof.
  intros Hb Hc. split; [|split].
  - rewrite web_paper_to_dict_fold, sections_of_no_bracket by exact Hb.
    cbn [fold_left]. unfold web_assign. now rewrite Hc.
  - rewrite md_format_paper_blocks, md_format_paper_no_summary.
    rewrite sections_of_no_bracket by exact Hb.
    unfold md_block. cbn [map concat_all fold_right]. now rewrite Hc.
  - rewrite obsidian_format_paper_blocks, obsidian_format_paper_no_summary.
    rewrite sections_of_no_bracket by exact Hb.
    unfold obsidian_block. cbn [map concat_all fold_right]. now rewrite Hc.
Qed.

Lemma no_bracket_no_leading_label_witness :
  contains_char "[" "plain text" = false
  /\ classify (clean_summary "plain text") = None
  /\ WebExporter.paper_to_dict (mkPaper "P" (Some "plain text") None)
     = WebExporter.mkDict "P" None [] EmptyString EmptyString.
Proof.
  split; [reflexivity | split; [reflexivity|]].
  apply (no_bracket_no_leading_label_parses_empty "P" "plain text" None);
    reflexivity.
Defined.

(** C2, as stated, fails: the text before the first bracket is a candidate
    section too, so a summary without any bracket that starts with a label
    is parsed and rendered. *)
Lemma bare_label_without_bracket_is_parsed :
  contains_char "[" "Summary:] hello" = false
  /\ WebExporter.paper_to_dict paper_bare_label
     = WebExporter.mkDict "P" None [] EmptyString "hello"
  /\ MarkdownExporter._format_paper paper_bare_label
     = "## P" ++ Py.nl ++ Py.nl
       ++ "### Summary" ++ Py.nl ++ Py.nl ++ "hello" ++ Py.nl ++ Py.nl
       ++ "---" ++ Py.nl ++ Py.nl.
Proof. repeat split. Qed.

(** ** Omitted subsections *)

(** C3 (amended).  For every paper record, with or without summary, the
    plain-document renderer leaves out a subsection when no candidate
    section carries its label: whatever labels are carried by no section
    contribute nothing to the rendered paper, which keeps its own heading.
    With TL;DR and Summary carried by no section, the paper consists of its
    heading, its Topics subsections, the URL line and the rule. *)
Theorem md_omits_subsections_without_section
    (absent : label -> bool) (paper : Paper) :
  (forall l, absent l = true -> last_labelled l (paper_sections paper) = None) ->
  MarkdownExporter._format_paper paper
  = "## " ++ title paper ++ Py.nl ++ Py.nl
    ++ concat_all (map (md_block_without absent) (paper_sections paper))
    ++ md_url_line (pdf_url paper) ++ "---" ++ Py.nl ++ Py.nl.
Proof.
  destruct paper as [t [s|] u]; unfold paper_sections;
    cbn [title summary pdf_url].
  - destruct s as [|c s]; cbn [Py.truthy].
    + intros _. rewrite md_format_paper_blocks, sections_of_empty.
      reflexivity.
    + intros H. rewrite md_format_paper_blocks.
      assert (E : map md_block (sections_of (String c s))
                  = map (md_block_without absent) (sections_of (String c s)));
        [|now rewrite E].
      apply map_ext_in. intros sec Hin. unfold md_block, md_block_without.
      destruct (classify sec) as [l|] eqn:Hc; [|reflexivity].
      destruct (absent l) eqn:Ha; [|reflexivity].
      apply H in Ha.
      pose proof (proj1 (last_labelled_none _ _) Ha sec Hin) as Hl.
      unfold labelled in Hl. rewrite Hc in Hl. now destruct l.
  - intros _. rewrite md_format_paper_no_summary. reflexivity.
Qed.

Lemma md_omits_subsections_witness :
  MarkdownExporter._format_paper alpha_paper
  = "## Alpha Paper" ++ Py.nl ++ Py.nl ++ "---" ++ Py.nl ++ Py.nl
  /\ MarkdownExporter._format_paper topics_only_paper
     = "## Beta Paper" ++ Py.nl ++ Py.nl
       ++ "### Topics" ++ Py.nl ++ Py.nl ++ "nlp" ++ Py.nl ++ Py.nl
       ++ "**Paper URL**: [http://x/b.pdf](http://x/b.pdf)" ++ Py.nl ++ Py.nl
       ++ "---" ++ Py.nl ++ Py.nl.
Proof.
  split.
  - rewrite (md_omits_subsections_without_section (fun _ => true) alpha_paper);
      [reflexivity|].
    intros l _. reflexivity.
  - rewrite (md_omits_subsections_without_section
               (fun l => negb (label_eqb l Topics)) topics_only_paper);
      [reflexivity|].
    intros [| |] E; [discriminate E | reflexivity | reflexivity].
Defined.

(** C3, as stated, fails: a TL;DR section with nothing after its label
    parses to an empty tldr (and there is no summary), yet its subheading is
    rendered, over an empty body. *)
Lemma empty_tldr_section_keeps_subheading :
  WebExporter.d_tldr (WebExporter.paper_to_dict paper_empty_tldr) = EmptyString
  /\ WebExporter.d_summary (WebExporter.paper_to_dict paper_empty_tldr)
     = EmptyString
  /\ MarkdownExporter._format_paper paper_empty_tldr
     = "## P" ++ Py.nl ++ Py.nl
       ++ "### TL;DR" ++ Py.nl ++ Py.nl ++ Py.nl ++ Py.nl
       ++ "---" ++ Py.nl ++ Py.nl
  /\ occurrences "### TL;DR" (MarkdownExporter._format_paper paper_empty_tldr)
     = 1.
Proof. repeat split. Qed.

(** ** The value of a labelled section *)




(** ** Well-formed summaries *)

Lemma contains_char_lower (c : ascii) (s : string) :
  Py.lower_char c = c ->
  contains_char c (Py.lower s) = false -> contains_char c s = false.
Proof.
  intros Hc. induction s as [|x s IH]; [reflexivity|].
  cbn [Py.lower contains_char]. intros H.
  apply orb_false_elim in H as [Hx Hs]. rewrite (IH Hs), orb_false_r.
  destruct (Ascii.eqb x c) eqn:E; [|reflexivity].
  apply Ascii.eqb_eq in E. subst x. now rewrite Hc, Ascii.eqb_refl in Hx.
Qed.

Lemma replace_absent (c : ascii) (old new s : string) :
  contains_char c s = false -> Py.replace (String c old) new s = s.
Proof.
  unfold Py.replace. induction s as [|x s IH]; intros H; [reflexivity|].
  cbn [contains_char] in H. apply orb_false_elim in H as [Hx Hs].
  cbn [Py.replace_from]. rewrite (prefix_head_neq c x old s Hx).
  now rewrite (IH Hs).
Qed.

Lemma split_at_sep (sep : ascii) (a b : string) :
  contains_char sep a = false ->
  Py.split sep (a ++ String sep b) = a :: Py.split sep b.
Proof.
  induction a as [|x a IH]; intros H.
  - cbn. now rewrite Ascii.eqb_refl.
  - cbn [contains_char] in H. apply orb_false_elim in H as [Hx Ha].
    cbn [String.append Py.split]. rewrite Hx, (IH Ha). reflexivity.
Qed.

(** A section that starts with any casing of a label takes that label's
    branch. *)
Lemma classify_of_lower (l : label) (head rest : string) :
  Py.lower head = label_prefix l -> classify (head ++ rest) = Some l.
Proof.
  intros H. unfold classify, Py.startswith. rewrite lower_append, H.
  destruct l; cbn [label_prefix];
    repeat (rewrite prefix_append || (cbn; try reflexivity)).
Qed.

Lemma field_value_of_lower (l : label) (head rest : string) :
  Py.lower head = label_prefix l ->
  field_value l (head ++ rest)
  = Py.strip (Py.re_sub_icase (label_pattern l) rest).
Proof.
  intros H. unfold field_value. f_equal.
  rewrite re_sub_icase_matched.
  - replace (String.length (label_pattern l)) with (String.length head).
    + now rewrite drop_append.
    + rewrite <- (length_lower head), H. now destruct l.
  - now destruct l.
  - apply classify_match. now apply classify_of_lower.
Qed.

(** C5.  A summary made of the three sections "[Topics:] a, b", "[TL;DR:] x"
    and "[Summary:] y", with each label in any letter casing, parses to
    topics ["a"; "b"], tldr "x" and summary "y". *)
Theorem three_well_formed_sections_parse
    (t : string) (u : option string) (topics_lbl tldr_lbl summary_lbl : string) :
  Py.lower topics_lbl = "topics:]" ->
  Py.lower tldr_lbl = "tl;dr:]" ->
  Py.lower summary_lbl = "summary:]" ->
  WebExporter.paper_to_dict
    (mkPaper t
       (Some ("[" ++ topics_lbl ++ " a, b[" ++ tldr_lbl ++ " x["
              ++ summary_lbl ++ " y")) u)
  = WebExporter.mkDict t u ["a"; "b"] "x" "y".
Proof.
  intros H1 H2 H3.
  pose (s1 := topics_lbl ++ " a, b").
  pose (s2 := tldr_lbl ++ " x").
  pose (s3 := summary_lbl ++ " y").
  assert (Es : "[" ++ topics_lbl ++ " a, b[" ++ tldr_lbl ++ " x["
               ++ summary_lbl ++ " y"
               = EmptyString ++ String "[" (s1 ++ String "[" (s2 ++ String "[" s3))).
  { subst s1 s2 s3. cbn. rewrite !append_assoc. reflexivity. }
  assert (Hno : forall c, Py.lower_char c = c ->
                  contains_char c "topics:]" = false ->
                  contains_char c "tl;dr:]" = false ->
                  contains_char c "summary:]" = false ->
                  contains_char c " a, b" = false ->
                  contains_char c " x" = false ->
                  contains_char c " y" = false ->
                  contains_char c s1 = false /\ contains_char c s2 = false
                  /\ contains_char c s3 = false).
  { intros c Hc T1 T2 T3 B1 B2 B3. subst s1 s2 s3.
    rewrite !contains_char_append, B1, B2, B3, !orb_false_r.
    repeat split; apply contains_char_lower; try exact Hc; congruence. }
  destruct (Hno "["%char eq_refl eq_refl eq_refl eq_refl eq_refl eq_refl eq_refl)
    as (Hb1 & Hb2 & Hb3).
  destruct (Hno "*"%char eq_refl eq_refl eq_refl eq_refl eq_refl eq_refl eq_refl)
    as (Ha1 & Ha2 & Ha3).
  destruct (Hno "_"%char eq_refl eq_refl eq_refl eq_refl eq_refl eq_refl eq_refl)
    as (Hu1 & Hu2 & Hu3).
  rewrite web_paper_to_dict_fold. rewrite Es.
  assert (Esec : sections_of
                   (EmptyString ++ String "[" (s1 ++ String "[" (s2 ++ String "[" s3)))
                 = [EmptyString; s1; s2; s3]).
  { unfold sections_of, clean_summary.
    rewrite (replace_absent "*"%char), (replace_absent "_"%char).
    - rewrite split_at_sep by reflexivity.
      rewrite split_at_sep by exact Hb1.
      rewrite split_at_sep by exact Hb2.
      now rewrite split_absent by exact Hb3.
    - cbn [String.append contains_char].
      rewrite !contains_char_append. cbn [contains_char].
      rewrite !contains_char_append. cbn [contains_char].
      now rewrite Hu1, Hu2, Hu3.
    - cbn [String.append contains_char].
      rewrite !contains_char_append. cbn [contains_char].
      rewrite !contains_char_append. cbn [contains_char].
      now rewrite Ha1, Ha2, Ha3. }
  rewrite Esec. cbn [fold_left]. unfold web_assign at 4.
  cbn [classify Py.lower Py.startswith String.prefix].
  subst s1 s2 s3. unfold web_assign.
  rewrite (classify_of_lower Topics _ _ H1), (classify_of_lower TLDR _ _ H2),
    (classify_of_lower Summary _ _ H3).
  rewrite (field_value_of_lower Topics _ _ H1),
    (field_value_of_lower TLDR _ _ H2), (field_value_of_lower Summary _ _ H3).
  reflexivity.
Qed.

Lemma three_well_formed_sections_witness :
  Py.lower "TOPICS:]" = "topics:]"
  /\ Py.lower "Tl;Dr:]" = "tl;dr:]"
  /\ Py.lower "summary:]" = "summary:]"
  /\ WebExporter.paper_to_dict
       (mkPaper "P"
          (Some ("[" ++ "TOPICS:]" ++ " a, b[" ++ "Tl;Dr:]" ++ " x["
                 ++ "summary:]" ++ " y")) None)
     = WebExporter.mkDict "P" None ["a"; "b"] "x" "y".
Proof.
  split; [reflexivity | split; [reflexivity | split; [reflexivity|]]].
  apply (three_well_formed_sections_parse "P" None "TOPICS:]" "Tl;Dr:]"
           "summary:]"); reflexivity.
Defined.

(** ** Sorting by title *)

Lemma string_leb_refl (s : string) : String.leb s s = true.
Proof.
  unfold String.leb. destruct (String.compare s s) eqn:E; try reflexivity.
  pose proof (String.compare_antisym s s) as H. rewrite E in H.
  discriminate H.
Qed.

Lemma ascii_compare_N (a b : ascii) :
  Ascii.compare a b = N.compare (N_of_ascii a) (N_of_ascii b).
Proof. reflexivity. Qed.

Lemma string_leb_trans (a b c : string) :
  String.leb a b = true -> String.leb b c = true -> String.leb a c = true.
Proof.
  unfold String.leb. revert b c.
  induction a as [|x a IH]; intros [|y b] [|z c]; cbn [String.compare];
    try (intros; reflexivity); try discriminate.
  rewrite !ascii_compare_N.
  destruct (N.compare_spec (N_of_ascii x) (N_of_ascii y)) as [Exy|Lxy|Gxy];
    try discriminate;
    destruct (N.compare_spec (N_of_ascii y) (N_of_ascii z)) as [Eyz|Lyz|Gyz];
    try discriminate; intros Hab Hbc.
  - rewrite Exy, Eyz, N.compare_refl. now apply (IH b c).
  - rewrite Exy. now rewrite (proj2 (N.compare_lt_iff _ _) Lyz).
  - rewrite <- Eyz. now rewrite (proj2 (N.compare_lt_iff _ _) Lxy).
  - now rewrite (proj2 (N.compare_lt_iff _ _) (N.lt_trans _ _ _ Lxy Lyz)).
Qed.

Section SortedFacts.
Context {A : Type}.
Variable key : A -> string.

Let le (a b : A) : Prop := String.leb (key a) (key b) = true.

Lemma insert_by_perm (x : A) (l : list A) :
  Permutation (insert_by key x l) (x :: l).
Proof.
  induction l as [|y l IH]; cbn [insert_by]; [apply Permutation_refl|].
  destruct (String.leb (key x) (key y)); [apply Permutation_refl|].
  apply perm_trans with (y :: x :: l); [now apply perm_skip | apply perm_swap].
Qed.

Lemma sorted_perm (l : list A) : Permutation (sorted key l) l.
Proof.
  induction l as [|x l IH]; cbn [sorted fold_right]; [apply perm_nil|].
  apply perm_trans with (x :: sorted key l);
    [apply insert_by_perm | now apply perm_skip].
Qed.

Lemma insert_by_hd (y x : A) (l : list A) :
  le y x -> HdRel le y l -> HdRel le y (insert_by key x l).
Proof.
  intros Hyx Hl. destruct l as [|z l]; cbn [insert_by].
  - now constructor.
  - destruct (String.leb (key x) (key z)); constructor; [exact Hyx|].
    now inversion Hl.
Qed.

Lemma insert_by_sorted (x : A) (l : list A) :
  Sorted le l -> Sorted le (insert_by key x l).
Proof.
  induction l as [|y l IH]; intros Hs; cbn [insert_by].
  - repeat constructor.
  - destruct (String.leb (key x) (key y)) eqn:E.
    + constructor; [exact Hs | now constructor].
    + inversion Hs as [|? ? Hs' Hhd]; subst. constructor; [now apply IH|].
      apply insert_by_hd; [|exact Hhd].
      destruct (String.leb_total (key x) (key y)) as [F|F];
        [congruence | exact F].
Qed.

Lemma sorted_sorted (l : list A) : Sorted le (sorted key l).
Proof.
  induction l as [|x l IH]; cbn [sorted fold_right]; [constructor|].
  now apply insert_by_sorted.
Qed.

(** The sort is stable: elements with one and the same key keep the order
    they had in the input. *)
Lemma insert_by_stable (k : string) (x : A) (l : list A) :
  filter (fun a => String.eqb (key a) k) (insert_by key x l)
  = filter (fun a => String.eqb (key a) k) (x :: l).
Proof.
  induction l as [|y l IH]; cbn [insert_by]; [reflexivity|].
  destruct (String.leb (key x) (key y)) eqn:E; [reflexivity|].
  cbn [filter] in *. rewrite IH.
  destruct (String.eqb (key x) k) eqn:Ex, (String.eqb (key y) k) eqn:Ey;
    try reflexivity.
  apply String.eqb_eq in Ex, Ey. rewrite Ex, Ey, string_leb_refl in E.
  discriminate E.
Qed.

Lemma sorted_stable (k : string) (l : list A) :
  filter (fun a => String.eqb (key a) k) (sorted key l)
  = filter (fun a => String.eqb (key a) k) l.
Proof.
  induction l as [|x l IH]; [reflexivity|].
  cbn [sorted fold_right]. rewrite insert_by_stable.
  cbn [filter]. fold (sorted key l). now rewrite IH.
Qed.
End SortedFacts.

(** C6.  Whatever the order of the input list, each of the three renderers
    emits one section (or record) per paper, in ascending order of the
    lower-cased titles: the papers rendered are a permutation of the input
    in which the lower-cased title of every paper is at most that of every
    paper after it. *)
Theorem paper_sections_in_title_order
    (now : string) (papers : list Paper) (doc_title : string) :
  Permutation (sorted title_key papers) papers
  /\ StronglySorted
       (fun a b => String.leb (Py.lower (title a)) (Py.lower (title b)) = true)
       (sorted title_key papers)
  /\ MarkdownExporter.generate_markdown_at now papers doc_title
     = "# " ++ doc_title ++ Py.nl ++ Py.nl
       ++ "*Generated on " ++ now
       ++ " by [PubSummarizer](https://github.com/Logan-Lin/PubSummarizer)*"
       ++ Py.nl ++ Py.nl
       ++ concat_all (map MarkdownExporter._format_paper
                        (sorted title_key papers))
  /\ ObsidianExporter.generate_markdown papers doc_title
     = "---" ++ Py.nl ++ "title: " ++ doc_title ++ Py.nl
       ++ "---" ++ Py.nl ++ Py.nl
       ++ "*Generated by [PubSummarizer](https://github.com/Insights-Ac/PubSummarizer)*"
       ++ Py.nl ++ Py.nl
       ++ concat_all (map ObsidianExporter._format_paper
                        (sorted title_key papers))
  /\ WebExporter.json_dumps (WebExporter.papers_data papers)
     = "[" ++ Py.join ", "
                (map (fun p => WebExporter.json_dict (WebExporter.paper_to_dict p))
                   (sorted title_key papers)) ++ "]"
  /\ map title
       (sorted title_key
          [mkPaper "beta" None None; mkPaper "Zeta" None None;
           mkPaper "alpha" None None; mkPaper "Beta" None None])
     = ["alpha"; "beta"; "Beta"; "Zeta"].
Proof.
  split; [apply sorted_perm | split; [|split; [|split; [|split]]]];
    [| | | |reflexivity].
  - apply Sorted_StronglySorted.
    + intros a b c. apply string_leb_trans.
    + apply (sorted_sorted title_key).
  - unfold MarkdownExporter.generate_markdown_at.
    rewrite fold_left_append. rewrite ?append_assoc. cbn.
    rewrite ?append_assoc. reflexivity.
  - unfold ObsidianExporter.generate_markdown.
    rewrite fold_left_append. rewrite ?append_assoc. cbn.
    rewrite ?append_assoc. reflexivity.
  - unfold WebExporter.json_dumps, WebExporter.papers_data,
      WebExporter.json_list. now rewrite map_map.
Qed.

(** ** Export without records *)

(** C7.  When the store query returns the empty list, each exporter raises
    the no-records [ValueError] at once: the only call made is the query, so
    no directory is created and no file is written, and the world is the one
    the query left. *)
Theorem no_records_raises_without_file_io
    {Db Filters W : Type} (h : handler Db Filters W)
    (html_content : WebExporter.page_template) (db : Db)
    (output_path : string) (filters : option Filters) (doc_title : string)
    (w w' : W) :
  h _ (get_papers db filters) w = (inr [], w') ->
  run h (MarkdownExporter.export_to_file db output_path filters doc_title) w
  = (inl (ValueError no_papers_msg), w', [Ev (get_papers db filters)])
  /\ run h (ObsidianExporter.export_to_file db output_path filters doc_title) w
     = (inl (ValueError no_papers_msg), w', [Ev (get_papers db filters)])
  /\ run h (WebExporter.export_to_file html_content db output_path filters
              doc_title) w
     = (inl (ValueError no_papers_msg), w', [Ev (get_papers db filters)])
  /\ existsb is_file_io [Ev (get_papers db filters)] = false.
Proof.
  intros H. repeat split; cbn; rewrite H; reflexivity.
Qed.

Lemma no_records_witness :
  Sim.handle _ (get_papers (Sim.store world_one_paper) match_none)
    world_one_paper = (inr [], world_one_paper)
  /\ run Sim.handle
       (MarkdownExporter.export_to_file (Sim.store world_one_paper) "out/p.md"
          match_none "T") world_one_paper
     = (inl (ValueError no_papers_msg), world_one_paper,
        [Ev (get_papers (Sim.store world_one_paper) match_none)]).
Proof.
  split; [reflexivity|].
  apply (no_records_raises_without_file_io Sim.handle Sim.empty_template
           (Sim.store world_one_paper) "out/p.md" match_none "T"
           world_one_paper world_one_paper).
  reflexivity.
Defined.

(** ** The format selector *)

Lemma select_exporter_unsupported {Db Filters : Type} (format : string) (db : Db) :
  Py.lower format <> "markdown" ->
  Py.lower format <> "obsidian" ->
  Py.lower format <> "html" ->
  @select_exporter Db Filters format db
  = Raise (ValueError (unsupported_msg format)).
Proof.
  intros H1 H2 H3. unfold select_exporter.
  apply String.eqb_neq in H1, H2, H3. now rewrite H1, H2, H3.
Qed.

(** Once the selector has chosen an exporter, [export_papers] is the export
    of that exporter followed by the success message. *)
Lemma run_export_papers_selected {Db Filters W : Type}
    (h : handler Db Filters W) (html_content : WebExporter.page_template)
    (db_url output_path format : string) (filters : option Filters)
    (doc_title : string) (w : W) (chosen : Db -> exporter Db) :
  (forall db, @select_exporter Db Filters format db = Ret (chosen db)) ->
  run h (export_papers html_content db_url output_path format filters
           doc_title) w
  = run h (db <- perform (Database db_url) ;;
           export_to_file html_content (chosen db) output_path filters
             doc_title ;;
           perform (print ("Exported papers to " ++ output_path)))%prog w.
Proof.
  intros H. unfold export_papers. cbn [perform bind run].
  destruct (h Db (Database db_url) w) as [[e|db] w1]; [reflexivity|].
  now rewrite H.
Qed.

(** C8 (amended).  The selector is compared after lower-casing.  When its
    lower-cased value is none of markdown, obsidian and html, [export_papers]
    raises the unsupported-format [ValueError] once the store handle has
    been built: the store is not queried and no file call is made.  When its
    lower-cased value is one of the three, [export_papers] runs the export
    of the exporter of that name. *)
Theorem format_selector_is_matched_in_lower_case
    {Db Filters W : Type} (h : handler Db Filters W)
    (html_content : WebExporter.page_template)
    (db_url output_path format : string) (filters : option Filters)
    (doc_title : string) (w : W) :
  (Py.lower format <> "markdown" ->
   Py.lower format <> "obsidian" ->
   Py.lower format <> "html" ->
   run h (export_papers html_content db_url output_path format filters
            doc_title) w
   = match h _ (Database db_url) w with
     | (inl e, w') => (inl e, w', [Ev (Database db_url)])
     | (inr _, w') =>
         (inl (ValueError (unsupported_msg format)), w', [Ev (Database db_url)])
     end)
  /\ (Py.lower format = "markdown" ->
      run h (export_papers html_content db_url output_path format filters
               doc_title) w
      = run h (db <- perform (Database db_url) ;;
               MarkdownExporter.export_to_file db output_path filters
                 doc_title ;;
               perform (print ("Exported papers to " ++ output_path)))%prog w)
  /\ (Py.lower format = "obsidian" ->
      run h (export_papers html_content db_url output_path format filters
               doc_title) w
      = run h (db <- perform (Database db_url) ;;
               ObsidianExporter.export_to_file db output_path filters
                 doc_title ;;
               perform (print ("Exported papers to " ++ output_path)))%prog w)
  /\ (Py.lower format = "html" ->
      run h (export_papers html_content db_url output_path format filters
               doc_title) w
      = run h (db <- perform (Database db_url) ;;
               WebExporter.export_to_file html_content db output_path filters
                 doc_title ;;
               perform (print ("Exported papers to " ++ output_path)))%prog w).
Proof.
  split; [|split; [|split]].
  - intros H1 H2 H3. unfold export_papers. cbn [perform bind run].
    destruct (h Db (Database db_url) w) as [[e|db] w1]; [reflexivity|].
    rewrite (select_exporter_unsupported format db H1 H2 H3). reflexivity.
  - intros E. apply (run_export_papers_selected _ _ _ _ _ _ _ _ Markdown).
    intros db. unfold select_exporter. now rewrite E.
  - intros E. apply (run_export_papers_selected _ _ _ _ _ _ _ _ Obsidian).
    intros db. unfold select_exporter. now rewrite E.
  - intros E. apply (run_export_papers_selected _ _ _ _ _ _ _ _ Web).
    intros db. unfold select_exporter. now rewrite E.
Qed.

Lemma format_selector_witness :
  Py.lower "pdf" <> "markdown" /\ Py.lower "pdf" <> "obsidian"
  /\ Py.lower "pdf" <> "html"
  /\ run Sim.handle
       (export_papers Sim.empty_template "sqlite://" "out/p.pdf" "pdf" None "T")
       world_one_paper
     = (inl (ValueError (unsupported_msg "pdf")), world_one_paper,
        [Ev (Database "sqlite://")]).
Proof.
  split; [discriminate | split; [discriminate | split; [discriminate|]]].
  apply (proj1 (format_selector_is_matched_in_lower_case Sim.handle
                  Sim.empty_template "sqlite://" "out/p.pdf" "pdf" None "T"
                  world_one_paper)); discriminate.
Defined.

(** C8, as stated, fails: the selector HTML is none of the three values
    markdown, obsidian and html, yet no error is raised; the browsable-page
    exporter is chosen, the store is queried and the file is written. *)
Lemma upper_case_format_is_accepted :
  "HTML" <> "markdown" /\ "HTML" <> "obsidian" /\ "HTML" <> "html"
  /\ @select_exporter Sim.Db Sim.Filters "HTML" (Sim.store world_one_paper)
     = Ret (Web (Sim.store world_one_paper))
  /\ fst (fst (run Sim.handle
                 (export_papers Sim.empty_template "sqlite://" "out/p.html"
                    "HTML" None "T") world_one_paper))
     = inr tt
  /\ existsb is_query
       (snd (run Sim.handle
               (export_papers Sim.empty_template "sqlite://" "out/p.html"
                  "HTML" None "T") world_one_paper)) = true
  /\ existsb is_file_io
       (snd (run Sim.handle
               (export_papers Sim.empty_template "sqlite://" "out/p.html"
                  "HTML" None "T") world_one_paper)) = true.
Proof.
  repeat split; try discriminate.
Qed.

(** ** Topic tags of the note-app variant *)

(** C9.  Every topic tag of the note-app variant is "#" followed by the slug
    of the topic (spaces to hyphens, apostrophes removed, lower-cased), and
    the Topics line of a section lists the tags of its comma-separated,
    stripped topics.  "Graph Neural Networks" gives #graph-neural-networks
    and "Alice's Method" gives #alices-method. *)
Theorem topic_tags_are_hash_slugs :
  (forall topic, ObsidianExporter.topic_tag topic = "#" ++ slug topic)
  /\ (forall md_text section,
        classify section = Some Topics ->
        ObsidianExporter.format_section md_text section
        = md_text ++ "**Topics:** "
          ++ Py.join ", "
               (map (fun topic => "#" ++ slug topic)
                  (map Py.strip (Py.split "," (field_value Topics section))))
          ++ Py.nl ++ Py.nl)
  /\ ObsidianExporter.topic_tag "Graph Neural Networks"
     = "#graph-neural-networks"
  /\ ObsidianExporter.topic_tag "Alice's Method" = "#alices-method"
  /\ ObsidianExporter._format_paper paper_slugs
     = "---" ++ Py.nl ++ Py.nl ++ "### P" ++ Py.nl ++ Py.nl
       ++ "**Topics:** #graph-neural-networks, #alices-method"
       ++ Py.nl ++ Py.nl.
Proof.
  split; [exact topic_tag_slug | split; [|repeat split]].
  intros md_text section Hc.
  rewrite obsidian_format_section_block. unfold obsidian_block.
  now rewrite Hc.
Qed.

Lemma topic_tags_witness :
  classify "Topics:] Graph Neural Networks, Alice's Method" = Some Topics
  /\ ObsidianExporter.format_section EmptyString
       "Topics:] Graph Neural Networks, Alice's Method"
     = "**Topics:** "
       ++ Py.join ", "
            (map (fun topic => "#" ++ slug topic)
               (map Py.strip
                  (Py.split ","
                     (field_value Topics
                        "Topics:] Graph Neural Networks, Alice's Method"))))
       ++ Py.nl ++ Py.nl.
Proof.
  split; [reflexivity|].
  apply (proj1 (proj2 topic_tags_are_hash_slugs) EmptyString
           "Topics:] Graph Neural Networks, Alice's Method").
  reflexivity.
Defined.

(** ** Empty topics *)

Lemma split_not_nil (sep : ascii) (s : string) : Py.split sep s <> [].
Proof.
  destruct s as [|c s]; cbn [Py.split]; [discriminate|].
  destruct (Ascii.eqb c sep); [discriminate|].
  destruct (Py.split sep s); discriminate.
Qed.

(** C10.  In the browsable-page variant the topics of a paper are the empty
    list exactly when no candidate section carries the topics label; a
    topics section whose content is empty after the label gives the
    one-element list holding the empty string, as for the summary
    "[Topics:]", and is serialised as such. *)
Theorem empty_topics_section_gives_one_empty_topic
    (t s : string) (u : option string) :
  (WebExporter.d_topics (WebExporter.paper_to_dict (mkPaper t (Some s) u)) = []
   <-> last_labelled Topics (sections_of s) = None)
  /\ (forall sec,
        last_labelled Topics (sections_of s) = Some sec ->
        field_value Topics sec = EmptyString ->
        WebExporter.d_topics (WebExporter.paper_to_dict (mkPaper t (Some s) u))
        = [EmptyString])
  /\ WebExporter.d_topics (WebExporter.paper_to_dict (mkPaper t None u)) = []
  /\ WebExporter.d_topics (WebExporter.paper_to_dict paper_empty_topics)
     = [EmptyString]
  /\ WebExporter.json_dumps (WebExporter.papers_data [paper_empty_topics])
     = "[{" ++ WebExporter.json_key "title" ++ Py.dq ++ "P" ++ Py.dq
       ++ ", " ++ WebExporter.json_key "pdf_url" ++ "null"
       ++ ", " ++ WebExporter.json_key "topics" ++ "[" ++ Py.dq ++ Py.dq ++ "]"
       ++ ", " ++ WebExporter.json_key "tldr" ++ Py.dq ++ Py.dq
       ++ ", " ++ WebExporter.json_key "summary" ++ Py.dq ++ Py.dq ++ "}]".
Proof.
  rewrite web_paper_to_dict_fold, web_fold_last. cbn [WebExporter.d_topics].
  split; [|split; [|repeat split]].
  - destruct (last_labelled Topics (sections_of s)) as [sec|];
      [|now split].
    split; [|discriminate]. intros E. apply map_eq_nil in E.
    now apply split_not_nil in E.
  - intros sec E Hv. now rewrite E, Hv.
Qed.

Lemma empty_topics_section_witness :
  last_labelled Topics (sections_of "[Topics:]  ") = Some "Topics:]  "
  /\ field_value Topics "Topics:]  " = EmptyString
  /\ WebExporter.d_topics
       (WebExporter.paper_to_dict (mkPaper "P" (Some "[Topics:]  ") None))
     = [EmptyString].
Proof.
  split; [reflexivity | split; [reflexivity|]].
  apply (proj1 (proj2 (empty_topics_section_gives_one_empty_topic "P"
                         "[Topics:]  " None)) "Topics:]  ");
    reflexivity.
Defined.

(** ** The model on concrete inputs *)

Example lower_label : Py.lower "TL;DR:] Ab" = "tl;dr:] ab".
Proof. reflexivity. Qed.

Example strip_both_ends : Py.strip "  a b  " = "a b".
Proof. reflexivity. Qed.

Example split_brackets :
  Py.split "[" "x[a[[b" = ["x"; "a"; EmptyString; "b"].
Proof. reflexivity. Qed.

Example replace_without_overlap :
  Py.replace "**" EmptyString "a***b****c" = "a*bc".
Proof. reflexivity. Qed.

Example json_escapes :
  WebExporter.json_str ("a" ++ Py.dq ++ "b\" ++ Py.nl)
  = Py.dq ++ "a\" ++ Py.dq ++ "b\\\n" ++ Py.dq.
Proof. reflexivity. Qed.

(** The scenario of a paper with the three sections and a URL next to a
    paper with neither summary nor URL: Alpha comes first and has no
    subsection and no URL line, Beta has all three and its link. *)
Example alpha_before_beta :
  MarkdownExporter.generate_markdown_at "2024-01-01 00:00:00"
    [mkPaper "Beta Paper" (Some "[Topics:] nlp[TL;DR:] short[Summary:] long")
       (Some "http://x/b.pdf");
     mkPaper "Alpha Paper" None None]
    "Research Paper Summaries"
  = "# Research Paper Summaries" ++ Py.nl ++ Py.nl
    ++ "*Generated on 2024-01-01 00:00:00 by [PubSummarizer](https://github.com/Logan-Lin/PubSummarizer)*"
    ++ Py.nl ++ Py.nl
    ++ "## Alpha Paper" ++ Py.nl ++ Py.nl
    ++ "---" ++ Py.nl ++ Py.nl
    ++ "## Beta Paper" ++ Py.nl ++ Py.nl
    ++ "### Topics" ++ Py.nl ++ Py.nl ++ "nlp" ++ Py.nl ++ Py.nl
    ++ "### TL;DR" ++ Py.nl ++ Py.nl ++ "short" ++ Py.nl ++ Py.nl
    ++ "### Summary" ++ Py.nl ++ Py.nl ++ "long" ++ Py.nl ++ Py.nl
    ++ "**Paper URL**: [http://x/b.pdf](http://x/b.pdf)" ++ Py.nl ++ Py.nl
    ++ "---" ++ Py.nl ++ Py.nl.
Proof. reflexivity. Qed.

(** A successful export in the in-memory world: the directory is ensured,
    the file written and the message printed, in that order. *)
Example export_obsidian_trace :
  map is_file_io
    (snd (run Sim.handle
            (export_papers Sim.empty_template "sqlite://" "out/p.md"
               "Obsidian" None "T") world_one_paper))
  = [false; false; true; true; false].
Proof. reflexivity. Qed.

(** * Further properties *)

(** ** Sorting *)

Section SortedMore.
Context {A : Type}.
Variable key : A -> string.

Let le (a b : A) : Prop := String.leb (key a) (key b) = true.

Lemma sorted_of_sorted (l : list A) : Sorted le l -> sorted key l = l.
Proof.
  induction l as [|x l IH]; intros Hs; [reflexivity|].
  inversion Hs as [|? ? Hs' Hhd]; subst.
  cbn [sorted fold_right]. fold (sorted key l). rewrite (IH Hs').
  destruct l as [|y l]; [reflexivity|].
  cbn [insert_by]. inversion Hhd as [|? ? Hxy]; subst.
  unfold le in Hxy. now rewrite Hxy.
Qed.

Lemma le_transitive : Relations_1.Transitive le.
Proof. intros a b c. unfold le. apply string_leb_trans. Qed.

Lemma key_injective_on (l : list A) (a b : A) :
  NoDup (map key l) -> In a l -> In b l -> key a = key b -> a = b.
Proof.
  induction l as [|x l IH]; intros Hnd Ha Hb E; [contradiction|].
  cbn [map] in Hnd. inversion Hnd as [|? ? Hx Hnd']; subst.
  destruct Ha as [->|Ha], Hb as [->|Hb]; try reflexivity.
  - exfalso. apply Hx. rewrite E. now apply in_map.
  - exfalso. apply Hx. rewrite <- E. now apply in_map.
  - now apply IH.
Qed.

(** Two sorted arrangements of the same elements coincide when no two
    elements share a key. *)
Lemma sorted_arrangement_unique (l1 l2 : list A) :
  Permutation l1 l2 -> NoDup (map key l1) ->
  StronglySorted le l1 -> StronglySorted le l2 -> l1 = l2.
Proof.
  revert l2. induction l1 as [|x l1 IH]; intros l2 Hp Hnd H1 H2.
  - now apply Permutation_nil in Hp.
  - destruct l2 as [|y l2];
      [apply Permutation_sym, Permutation_nil in Hp; discriminate|].
    assert (Exy : x = y).
    { assert (Hx : In x (y :: l2))
        by (apply (Permutation_in _ Hp); now left).
      assert (Hy : In y (x :: l1))
        by (apply (Permutation_in _ (Permutation_sym Hp)); now left).
      destruct Hx as [->|Hx]; [reflexivity|].
      destruct Hy as [->|Hy]; [reflexivity|].
      apply (key_injective_on (x :: l1)); [exact Hnd | now left | now right |].
      apply StronglySorted_inv in H1 as [_ F1].
      apply StronglySorted_inv in H2 as [_ F2].
      rewrite Forall_forall in F1, F2.
      apply String.leb_antisym; [apply (F1 y Hy) | apply (F2 x Hx)]. }
    subst y. f_equal. apply IH.
    + now apply Permutation_cons_inv in Hp.
    + cbn [map] in Hnd. now inversion Hnd.
    + now apply StronglySorted_inv in H1.
    + now apply StronglySorted_inv in H2.
Qed.

Lemma sorted_permutation_invariant (l1 l2 : list A) :
  Permutation l1 l2 -> NoDup (map key l1) -> sorted key l1 = sorted key l2.
Proof.
  intros Hp Hnd. apply sorted_arrangement_unique.
  - apply perm_trans with l1; [apply sorted_perm|].
    apply perm_trans with l2; [exact Hp|].
    apply Permutation_sym, sorted_perm.
  - apply (Permutation_NoDup (l := map key l1)); [|exact Hnd].
    apply Permutation_map, Permutation_sym, sorted_perm.
  - apply Sorted_StronglySorted; [exact le_transitive | apply sorted_sorted].
  - apply Sorted_StronglySorted; [exact le_transitive | apply sorted_sorted].
Qed.
End SortedMore.

(** X1.  The sort by title is stable: the papers whose lower-cased titles
    equal a given key appear in the rendered order exactly as they were
    ordered in the input. *)
Theorem papers_with_equal_title_keep_input_order
    (k : string) (papers : list Paper) :
  filter (fun p => String.eqb (title_key p) k) (sorted title_key papers)
  = filter (fun p => String.eqb (title_key p) k) papers.
Proof. apply sorted_stable. Qed.

(** X2.  A list that is already in ascending order of lower-cased titles is
    rendered in the order given, and sorting twice is sorting once: the
    page's records are those of the list as it stands. *)
Theorem ordered_input_is_rendered_as_given (papers : list Paper) :
  (Sorted title_le papers ->
   sorted title_key papers = papers
   /\ WebExporter.papers_data papers = map WebExporter.paper_to_dict papers)
  /\ sorted title_key (sorted title_key papers) = sorted title_key papers.
Proof.
  split.
  - intros Hs. unfold WebExporter.papers_data.
    now rewrite (sorted_of_sorted title_key papers Hs).
  - apply sorted_of_sorted, sorted_sorted.
Qed.

Lemma ordered_input_witness :
  Sorted title_le [mkPaper "alpha" None None; mkPaper "Beta" None None]
  /\ sorted title_key [mkPaper "alpha" None None; mkPaper "Beta" None None]
     = [mkPaper "alpha" None None; mkPaper "Beta" None None].
Proof.
  assert (Hs : Sorted title_le
                 [mkPaper "alpha" None None; mkPaper "Beta" None None])
    by (repeat constructor).
  split; [exact Hs|].
  exact (proj1 (proj1 (ordered_input_is_rendered_as_given
                         [mkPaper "alpha" None None; mkPaper "Beta" None None])
                  Hs)).
Defined.

(** X3.  When no two papers have the same lower-cased title, the three
    documents do not depend on the order of the input list: any
    rearrangement of the papers gives the same plain document, the same
    note-app document and the same page data. *)
Theorem distinct_titles_make_output_order_independent
    (now doc_title : string) (papers papers' : list Paper) :
  Permutation papers papers' ->
  NoDup (map title_key papers) ->
  MarkdownExporter.generate_markdown_at now papers doc_title
  = MarkdownExporter.generate_markdown_at now papers' doc_title
  /\ ObsidianExporter.generate_markdown papers doc_title
     = ObsidianExporter.generate_markdown papers' doc_title
  /\ WebExporter.json_dumps (WebExporter.papers_data papers)
     = WebExporter.json_dumps (WebExporter.papers_data papers').
Proof.
  intros Hp Hnd.
  unfold MarkdownExporter.generate_markdown_at,
    ObsidianExporter.generate_markdown, WebExporter.papers_data.
  now rewrite (sorted_permutation_invariant title_key papers papers' Hp Hnd).
Qed.

Lemma distinct_titles_witness :
  MarkdownExporter.generate_markdown_at "2024-01-01 00:00:00"
    [mkPaper "b" None None; mkPaper "A" None None] "T"
  = MarkdownExporter.generate_markdown_at "2024-01-01 00:00:00"
      [mkPaper "A" None None; mkPaper "b" None None] "T".
Proof.
  apply (distinct_titles_make_output_order_independent "2024-01-01 00:00:00"
           "T" [mkPaper "b" None None; mkPaper "A" None None]
           [mkPaper "A" None None; mkPaper "b" None None]).
  - apply perm_swap.
  - repeat constructor; cbn; intuition discriminate.
Defined.

(** ** Candidate sections *)

Lemma prefix_cons (a b : ascii) (p s : string) :
  String.prefix (String a p) (String b s)
  = (Ascii.eqb a b && String.prefix p s)%bool.
Proof.
  cbn [String.prefix]. destruct (ascii_dec a b) as [->|n].
  - now rewrite Ascii.eqb_refl.
  - apply Ascii.eqb_neq in n. now rewrite n.
Qed.

Lemma join_split (sep : ascii) (s : string) :
  Py.join (String sep EmptyString) (Py.split sep s) = s.
Proof.
  unfold Py.join. induction s as [|c s IH]; [reflexivity|].
  cbn [Py.split]. destruct (Ascii.eqb c sep) eqn:E.
  - apply Ascii.eqb_eq in E. subst c.
    destruct (Py.split sep s) as [|h t] eqn:Hs;
      [now apply split_not_nil in Hs|].
    change (String.concat (String sep EmptyString) (EmptyString :: h :: t))
      with (String sep (String.concat (String sep EmptyString) (h :: t))).
    now rewrite IH.
  - destruct (Py.split sep s) as [|h t] eqn:Hs;
      [now apply split_not_nil in Hs|].
    rewrite <- IH. destruct t; reflexivity.
Qed.

Lemma split_pieces_without (c sep : ascii) (s : string) :
  (Ascii.eqb c sep = true \/ contains_char c s = false) ->
  Forall (fun piece => contains_char c piece = false) (Py.split sep s).
Proof.
  induction s as [|x s IH]; intros H; [now repeat constructor|].
  cbn [Py.split]. destruct (Ascii.eqb x sep) eqn:E.
  - constructor; [reflexivity|]. apply IH.
    destruct H as [H|H]; [now left|right].
    cbn [contains_char] in H. now apply orb_false_elim in H.
  - assert (Hx : Ascii.eqb x c = false).
    { destruct H as [H|H].
      - apply Ascii.eqb_eq in H. subst c. exact E.
      - cbn [contains_char] in H. now apply orb_false_elim in H. }
    assert (Hs : Forall (fun piece => contains_char c piece = false)
                   (Py.split sep s)).
    { apply IH. destruct H as [H|H]; [now left|right].
      cbn [contains_char] in H. now apply orb_false_elim in H. }
    destruct (Py.split sep s) as [|h t];
      [constructor; [cbn; now rewrite Hx | constructor]|].
    inversion Hs; subst. constructor; [|assumption].
    cbn [contains_char]. now rewrite Hx.
Qed.

(** X4.  Splitting loses nothing and leaves no bracket behind: the
    candidate sections joined by "[" give back the summary without its
    emphasis markers, and no candidate section contains "[". *)
Theorem sections_partition_the_cleaned_summary (s : string) :
  Py.join "[" (sections_of s) = clean_summary s
  /\ Forall (fun section => contains_char "[" section = false) (sections_of s).
Proof.
  split.
  - apply join_split.
  - apply split_pieces_without. now left.
Qed.

(** ** Emphasis markers *)

Lemma prefix_of_empty (a : ascii) (p : string) :
  String.prefix (String a p) EmptyString = false.
Proof. reflexivity. Qed.

Lemma replace_pair_gone (c : ascii) (k : nat) (s : string) :
  k <= 1 ->
  occurrences (String c (String c EmptyString))
    (Py.replace_from (String c (String c EmptyString)) EmptyString k s) = 0.
Proof.
  revert k. induction s as [|x s IH]; intros k Hk; [reflexivity|].
  cbn [Py.replace_from String.length Nat.sub].
  destruct k as [|k]; [|apply IH; lia].
  rewrite prefix_cons.
  destruct (Ascii.eqb c x) eqn:Ex; cbn [andb].
  - apply Ascii.eqb_eq in Ex. subst x.
    destruct s as [|y s'].
    { rewrite prefix_of_empty. cbn [Py.replace_from occurrences].
      now rewrite prefix_cons, Ascii.eqb_refl, prefix_of_empty. }
    rewrite prefix_cons, prefix_empty, andb_true_r.
    destruct (Ascii.eqb c y) eqn:Ey.
    + cbn [String.append]. apply IH. lia.
    + cbn [occurrences]. rewrite (IH 0) by lia.
      assert (Eh : Py.replace_from (String c (String c EmptyString))
                     EmptyString 0 (String y s')
                   = String y (Py.replace_from (String c (String c EmptyString))
                                 EmptyString 0 s')).
      { cbn [Py.replace_from]. now rewrite prefix_cons, Ey. }
      rewrite Eh, !prefix_cons, Ey, andb_false_r. reflexivity.
  - cbn [occurrences]. rewrite (IH 0) by lia.
    now rewrite prefix_cons, Ex.
Qed.

(** X5.  After cleaning, no double underscore is left in a summary, and the
    removal of the double asterisks leaves none either; but the later
    removal of underscores can bring two single asterisks together, as in
    the summary made of an asterisk, two underscores and an asterisk. *)
Theorem cleaning_leaves_no_double_underscore (s : string) :
  occurrences "__" (clean_summary s) = 0
  /\ occurrences "**" (Py.replace "**" EmptyString s) = 0
  /\ clean_summary "*__*" = "**".
Proof.
  split; [|split; [|reflexivity]].
  - unfold clean_summary, Py.replace. apply (replace_pair_gone "_"). lia.
  - unfold Py.replace. apply (replace_pair_gone "*"). lia.
Qed.

(** ** Parsed fields *)

Lemma rstrip_cons (c : ascii) (s : string) :
  Py.rstrip (String c s)
  = match Py.rstrip s with
    | EmptyString => if Py.isspace c then EmptyString else String c EmptyString
    | String y r => String c (String y r)
    end.
Proof. reflexivity. Qed.

Lemma rstrip_idempotent (s : string) : Py.rstrip (Py.rstrip s) = Py.rstrip s.
Proof.
  induction s as [|c s IH]; [reflexivity|].
  rewrite rstrip_cons. destruct (Py.rstrip s) as [|y r] eqn:E.
  - destruct (Py.isspace c) eqn:Hc; [reflexivity|].
    rewrite rstrip_cons. cbn [Py.rstrip]. now rewrite Hc.
  - rewrite rstrip_cons. now rewrite IH.
Qed.

Lemma lstrip_head (s : string) :
  match Py.lstrip s with
  | EmptyString => True
  | String c _ => Py.isspace c = false
  end.
Proof.
  induction s as [|c s IH]; [exact I|].
  cbn [Py.lstrip]. destruct (Py.isspace c) eqn:E; [exact IH | exact E].
Qed.

Lemma lstrip_rstrip_fixed (c : ascii) (s : string) :
  Py.isspace c = false ->
  Py.lstrip (Py.rstrip (String c s)) = Py.rstrip (String c s).
Proof.
  intros H. rewrite rstrip_cons. destruct (Py.rstrip s); rewrite ?H;
    cbn [Py.lstrip]; now rewrite H.
Qed.

Lemma strip_idempotent (s : string) : Py.strip (Py.strip s) = Py.strip s.
Proof.
  unfold Py.strip. pose proof (lstrip_head s) as H.
  destruct (Py.lstrip s) as [|c t]; [reflexivity|].
  rewrite (lstrip_rstrip_fixed c t H). apply rstrip_idempotent.
Qed.

Lemma contains_char_lstrip (c : ascii) (s : string) :
  contains_char c s = false -> contains_char c (Py.lstrip s) = false.
Proof.
  induction s as [|x s IH]; intros H; [reflexivity|].
  cbn [Py.lstrip]. destruct (Py.isspace x); [|exact H].
  cbn [contains_char] in H. apply orb_false_elim in H. now apply IH.
Qed.

Lemma contains_char_rstrip (c : ascii) (s : string) :
  contains_char c s = false -> contains_char c (Py.rstrip s) = false.
Proof.
  induction s as [|x s IH]; intros H; [reflexivity|].
  cbn [contains_char] in H. apply orb_false_elim in H as [Hx Hs].
  rewrite rstrip_cons. specialize (IH Hs). destruct (Py.rstrip s).
  - destruct (Py.isspace x); [reflexivity|]. cbn. now rewrite Hx.
  - cbn [contains_char] in *. now rewrite Hx, IH.
Qed.

Lemma contains_char_strip (c : ascii) (s : string) :
  contains_char c s = false -> contains_char c (Py.strip s) = false.
Proof.
  intros H. unfold Py.strip. now apply contains_char_rstrip, contains_char_lstrip.
Qed.

Lemma contains_char_re_sub (c : ascii) (pat : string) (k : nat) (s : string) :
  contains_char c s = false ->
  contains_char c (Py.re_sub_icase_from pat k s) = false.
Proof.
  revert k. induction s as [|x s IH]; intros k H; [reflexivity|].
  cbn [contains_char] in H. apply orb_false_elim in H as [Hx Hs].
  cbn [Py.re_sub_icase_from]. destruct k as [|k]; [|now apply IH].
  destruct (Py.match_icase pat (String x s)); [now apply IH|].
  cbn [contains_char]. rewrite Hx. now apply IH.
Qed.

Lemma contains_char_field_value (c : ascii) (l : label) (section : string) :
  contains_char c section = false ->
  contains_char c (field_value l section) = false.
Proof.
  intros H. unfold field_value, Py.re_sub_icase.
  now apply contains_char_strip, contains_char_re_sub.
Qed.

Lemma last_labelled_in (l : label) (sections : list string) (sec : string) :
  last_labelled l sections = Some sec -> In sec sections.
Proof.
  induction sections as [|x rest IH]; [discriminate|].
  cbn [last_labelled]. destruct (last_labelled l rest) as [found|].
  - intros E. right. apply IH. exact E.
  - destruct (labelled l x); [|discriminate]. intros E. left. congruence.
Qed.

Lemma rstrip_last (s : string) : last_is_space (Py.rstrip s) = false.
Proof.
  induction s as [|c s IH]; [reflexivity|].
  rewrite rstrip_cons. destruct (Py.rstrip s) as [|y r].
  - destruct (Py.isspace c) eqn:Hc; [reflexivity | exact Hc].
  - exact IH.
Qed.

Lemma strip_outer_chars (s : string) :
  first_is_space (Py.strip s) = false /\ last_is_space (Py.strip s) = false.
Proof.
  unfold Py.strip. split; [|apply rstrip_last].
  pose proof (lstrip_head s) as H.
  destruct (Py.lstrip s) as [|c t]; [reflexivity|].
  rewrite rstrip_cons. destruct (Py.rstrip t);
    [rewrite H|]; exact H.
Qed.

(** A value taken from the last labelled section of a summary begins and
    ends with a character that is not white space, and is free of
    brackets. *)
Lemma last_field_value_clean (l : label) (s sec : string) :
  last_labelled l (sections_of s) = Some sec ->
  first_is_space (field_value l sec) = false
  /\ last_is_space (field_value l sec) = false
  /\ Py.strip (field_value l sec) = field_value l sec
  /\ contains_char "[" (field_value l sec) = false.
Proof.
  intros E.
  split; [apply strip_outer_chars|].
  split; [apply strip_outer_chars|].
  split; [apply strip_idempotent|].
  apply contains_char_field_value.
  apply last_labelled_in in E.
  pose proof (split_pieces_without "[" "[" (clean_summary s)
                (or_introl eq_refl)) as F.
  rewrite Forall_forall in F. now apply F.
Qed.

(** X6.  Whatever the paper, the record built for the page copies the title
    and the URL unchanged; its tldr and summary neither begin nor end with a
    white-space character (stripping them again changes nothing) and hold no
    "["; each of its topics neither begins nor ends with a white-space
    character and holds no comma and no "[". *)
Theorem page_record_fields_are_trimmed (paper : Paper) :
  WebExporter.d_title (WebExporter.paper_to_dict paper) = title paper
  /\ WebExporter.d_pdf_url (WebExporter.paper_to_dict paper) = pdf_url paper
  /\ Forall (fun value => first_is_space value = false
                          /\ last_is_space value = false
                          /\ Py.strip value = value
                          /\ contains_char "[" value = false)
       [WebExporter.d_tldr (WebExporter.paper_to_dict paper);
        WebExporter.d_summary (WebExporter.paper_to_dict paper)]
  /\ Forall (fun topic => first_is_space topic = false
                          /\ last_is_space topic = false
                          /\ Py.strip topic = topic
                          /\ contains_char "," topic = false
                          /\ contains_char "[" topic = false)
       (WebExporter.d_topics (WebExporter.paper_to_dict paper))
  /\ WebExporter.d_tldr
       (WebExporter.paper_to_dict
          (mkPaper "P" (Some "[TL;DR:]   x  ") None)) = "x".
Proof.
  destruct paper as [t [s|] u];
    [|split; [reflexivity | split; [reflexivity | split; [|split]]];
      [repeat constructor | constructor | reflexivity]].
  rewrite web_paper_to_dict_fold, web_fold_last.
  cbn [WebExporter.d_title WebExporter.d_pdf_url WebExporter.d_topics
       WebExporter.d_tldr WebExporter.d_summary title pdf_url].
  split; [reflexivity | split; [reflexivity | split; [|split]]];
    [| |reflexivity].
  - destruct (last_labelled TLDR (sections_of s)) as [a|] eqn:Ea;
      destruct (last_labelled Summary (sections_of s)) as [b|] eqn:Eb;
      repeat (constructor;
              [first [ exact (last_field_value_clean _ _ _ Ea)
                     | exact (last_field_value_clean _ _ _ Eb)
                     | repeat split ]|]);
      constructor.
  - destruct (last_labelled Topics (sections_of s)) as [a|] eqn:Ea;
      [|constructor].
    destruct (last_field_value_clean _ _ _ Ea) as (_ & _ & _ & Hb).
    pose proof (split_pieces_without "," "," (field_value Topics a)
                  (or_introl eq_refl)) as Fc.
    pose proof (split_pieces_without "[" "," (field_value Topics a)
                  (or_intror Hb)) as Fb.
    rewrite Forall_forall in *. intros topic Hin.
    apply in_map_iff in Hin as (piece & <- & Hp).
    split; [apply strip_outer_chars|].
    split; [apply strip_outer_chars|].
    split; [apply strip_idempotent|].
    split; apply contains_char_strip; [now apply Fc | now apply Fb].
Qed.

(** X7.  Only the lower-casing of a label matters: two sections that differ
    in the letter case of their label alone are treated alike by the three
    loops. *)
Theorem label_letter_case_is_irrelevant
    (l : label) (head head' rest md_text : string)
    (d : WebExporter.PaperDict) :
  Py.lower head = label_prefix l ->
  Py.lower head' = label_prefix l ->
  WebExporter.assign_section d (head ++ rest)
  = WebExporter.assign_section d (head' ++ rest)
  /\ MarkdownExporter.format_section md_text (head ++ rest)
     = MarkdownExporter.format_section md_text (head' ++ rest)
  /\ ObsidianExporter.format_section md_text (head ++ rest)
     = ObsidianExporter.format_section md_text (head' ++ rest).
Proof.
  intros H H'.
  rewrite !web_assign_section, !md_format_section_block,
    !obsidian_format_section_block.
  unfold web_assign, md_block, obsidian_block.
  rewrite (classify_of_lower l head rest H), (classify_of_lower l head' rest H').
  destruct l;
    rewrite ?(field_value_of_lower _ head rest H),
      ?(field_value_of_lower _ head' rest H'); repeat split.
Qed.

Lemma label_letter_case_witness :
  MarkdownExporter.format_section EmptyString ("SUMMARY:]" ++ " text")
  = MarkdownExporter.format_section EmptyString ("summary:]" ++ " text").
Proof.
  apply (label_letter_case_is_irrelevant Summary "SUMMARY:]" "summary:]"
           " text" EmptyString
           (WebExporter.mkDict "P" None [] EmptyString EmptyString));
    reflexivity.
Defined.

(** ** Hashtags *)

Lemma lower_char_idempotent (c : ascii) :
  Py.lower_char (Py.lower_char c) = Py.lower_char c.
Proof. destruct c as [[] [] [] [] [] [] [] []]; reflexivity. Qed.

Lemma lower_char_is_space (c : ascii) :
  Ascii.eqb (Py.lower_char c) " " = Ascii.eqb c " ".
Proof. destruct c as [[] [] [] [] [] [] [] []]; reflexivity. Qed.

Lemma lower_char_is_apostrophe (c : ascii) :
  Ascii.eqb (Py.lower_char c) "'" = Ascii.eqb c "'".
Proof. destruct c as [[] [] [] [] [] [] [] []]; reflexivity. Qed.

(** X8.  A hashtag of the note-app variant contains no space and no
    apostrophe and is in lower case, so lower-casing it changes nothing; a
    topic that is empty gives the bare "#". *)
Theorem hashtags_have_no_space_apostrophe_or_capital (topic : string) :
  contains_char " " (ObsidianExporter.topic_tag topic) = false
  /\ contains_char "'" (ObsidianExporter.topic_tag topic) = false
  /\ Py.lower (ObsidianExporter.topic_tag topic)
     = ObsidianExporter.topic_tag topic
  /\ ObsidianExporter.topic_tag EmptyString = "#".
Proof.
  rewrite topic_tag_slug. cbn [String.append contains_char Py.lower].
  assert (H : contains_char " " (slug topic) = false
              /\ contains_char "'" (slug topic) = false
              /\ Py.lower (slug topic) = slug topic).
  { induction topic as [|c t (IH1 & IH2 & IH3)]; [now repeat split|].
    cbn [slug]. destruct (Ascii.eqb c " ") eqn:Hs.
    - cbn [contains_char Py.lower]. now rewrite IH1, IH2, IH3.
    - destruct (Ascii.eqb c "'") eqn:Ha; [now repeat split|].
      cbn [contains_char Py.lower].
      rewrite lower_char_is_space, lower_char_is_apostrophe, Hs, Ha,
        lower_char_idempotent, IH1, IH2, IH3. now repeat split. }
  destruct H as (H1 & H2 & H3). rewrite H1, H2, H3. now repeat split.
Qed.

(** ** The calls of an export *)

Ltac answer_cases h :=
  repeat (cbn [bind run perform];
          match goal with
          | |- context [h ?X ?c ?w] => destruct (h X c w) as [[?|?] ?]
          | |- context [match ?l with [] => _ | _ :: _ => _ end] => destruct l
          end);
  cbn [bind run perform].

Ltac close_order :=
  cbn [fst snd map kind_of negb];
  eexists; split; [reflexivity | intros; first [discriminate | reflexivity]].

(** X9.  Whatever the outside world answers, [export_papers] makes its calls
    in one fixed order and stops at the first that fails: the store handle,
    one query, the clock unless the selector lower-cases to obsidian, the
    directory of the output path, one write of the output path, the
    message.  No other path is touched, nothing is written before the
    directory call, and the message is printed only after the write; a run
    that returns normally has made all of these calls, the clock read
    included for markdown and html and excluded for obsidian. *)
Theorem export_papers_calls_follow_one_order
    {Db Filters W : Type} (h : handler Db Filters W)
    (html_content : WebExporter.page_template)
    (db_url output_path format : string) (filters : option Filters)
    (doc_title : string) (w : W) :
  exists rest : list call_kind,
    (map kind_of
       (snd (run h (export_papers html_content db_url output_path format
                      filters doc_title) w)) ++ rest)%list
    = call_order output_path
        (negb (String.eqb (Py.lower format) "obsidian"))
    /\ (fst (fst (run h (export_papers html_content db_url output_path format
                           filters doc_title) w)) = inr tt ->
        rest = []).
Proof.
  unfold export_papers, select_exporter, call_order.
  cbn [bind run perform].
  destruct (h Db (Database db_url) w) as [[e|db] w1]; [close_order|].
  destruct (String.eqb_spec (Py.lower format) "markdown") as [Em|_];
    [rewrite ?Em|
     destruct (String.eqb_spec (Py.lower format) "obsidian") as [Eo|_];
       [rewrite ?Eo|
        destruct (String.eqb_spec (Py.lower format) "html") as [Eh|_];
          [rewrite ?Eh|]]];
    cbn [bind export_to_file String.eqb Ascii.eqb Bool.eqb negb];
    unfold MarkdownExporter.export_to_file, ObsidianExporter.export_to_file,
      WebExporter.export_to_file, MarkdownExporter.generate_markdown,
      WebExporter.generate_html;
    answer_cases h; try destruct u; close_order.
Qed.

(** X10.  When the store returns at least one paper and every call
    succeeds, each exporter writes one file, at the output path, after the
    directory call, and its content is the document generated from the
    papers returned: with the time read from the clock in the plain
    document, without any clock read in the note-app document, and
    independent of the time read in the page. *)
Theorem successful_export_writes_the_generated_document
    {Db Filters W : Type} (h : handler Db Filters W)
    (html_content : WebExporter.page_template) (db : Db)
    (output_path : string) (filters : option Filters) (doc_title : string)
    (paper : Paper) (papers : list Paper) (now : string)
    (w w1 w2 w3 w4 : W) :
  h _ (get_papers db filters) w = (inr (paper :: papers), w1) ->
  (h _ datetime_now w1 = (inr now, w2) ->
   h _ (mkdir_parent output_path) w2 = (inr tt, w3) ->
   h _ (write_text output_path
          (MarkdownExporter.generate_markdown_at now (paper :: papers)
             doc_title)) w3 = (inr tt, w4) ->
   run h (MarkdownExporter.export_to_file db output_path filters doc_title) w
   = (inr tt, w4,
      [Ev (get_papers db filters); Ev datetime_now;
       Ev (mkdir_parent output_path);
       Ev (write_text output_path
             (MarkdownExporter.generate_markdown_at now (paper :: papers)
                doc_title))]))
  /\ (h _ (mkdir_parent output_path) w1 = (inr tt, w3) ->
      h _ (write_text output_path
             (ObsidianExporter.generate_markdown (paper :: papers) doc_title))
        w3 = (inr tt, w4) ->
      run h (ObsidianExporter.export_to_file db output_path filters doc_title)
        w
      = (inr tt, w4,
         [Ev (get_papers db filters); Ev (mkdir_parent output_path);
          Ev (write_text output_path
                (ObsidianExporter.generate_markdown (paper :: papers)
                   doc_title))]))
  /\ (h _ datetime_now w1 = (inr now, w2) ->
      h _ (mkdir_parent output_path) w2 = (inr tt, w3) ->
      h _ (write_text output_path
             (WebExporter.format_page html_content doc_title
                (WebExporter.json_dumps
                   (WebExporter.papers_data (paper :: papers))))) w3
      = (inr tt, w4) ->
      run h (WebExporter.export_to_file html_content db output_path filters
               doc_title) w
      = (inr tt, w4,
         [Ev (get_papers db filters); Ev datetime_now;
          Ev (mkdir_parent output_path);
          Ev (write_text output_path
                (WebExporter.format_page html_content doc_title
                   (WebExporter.json_dumps
                      (WebExporter.papers_data (paper :: papers)))))])).
Proof.
  intros Hq. split; [|split].
  - intros Hn Hm Hw.
    unfold MarkdownExporter.export_to_file, MarkdownExporter.generate_markdown.
    cbn [bind run perform]. rewrite Hq. cbn [bind run perform].
    rewrite Hn. cbn [bind run perform]. rewrite Hm. cbn [bind run perform].
    now rewrite Hw.
  - intros Hm Hw. unfold ObsidianExporter.export_to_file.
    cbn [bind run perform]. rewrite Hq. cbn [bind run perform].
    rewrite Hm. cbn [bind run perform]. now rewrite Hw.
  - intros Hn Hm Hw.
    unfold WebExporter.export_to_file, WebExporter.generate_html.
    cbn [bind run perform]. rewrite Hq. cbn [bind run perform].
    rewrite Hn. cbn [bind run perform]. rewrite Hm. cbn [bind run perform].
    now rewrite Hw.
Qed.

Lemma successful_export_witness :
  run Sim.handle
    (ObsidianExporter.export_to_file (Sim.store world_one_paper) "out/p.md"
       None "T") world_one_paper
  = (inr tt,
     Sim.mkWorld (Sim.store world_one_paper) "2024-01-01 00:00:00" ["out/p.md"]
       [("out/p.md",
         ObsidianExporter.generate_markdown [paper_a] "T")] [],
     [Ev (get_papers (Sim.store world_one_paper) None);
      Ev (mkdir_parent "out/p.md");
      Ev (write_text "out/p.md"
            (ObsidianExporter.generate_markdown [paper_a] "T"))]).
Proof.
  apply (proj1 (proj2 (successful_export_writes_the_generated_document
           Sim.handle Sim.empty_template (Sim.store world_one_paper)
           "out/p.md" None "T" paper_a [] "2024-01-01 00:00:00"
           world_one_paper world_one_paper world_one_paper
           (Sim.mkWorld (Sim.store world_one_paper) "2024-01-01 00:00:00"
              ["out/p.md"] [] [])
           (Sim.mkWorld (Sim.store world_one_paper) "2024-01-01 00:00:00"
              ["out/p.md"]
              [("out/p.md", ObsidianExporter.generate_markdown [paper_a] "T")]
              [])
           eq_refl))); reflexivity.
Defined.

(** X11.  An exception of a collaborator ends the export and reaches the
    caller unchanged: if the store query raises, nothing else is called; if
    creating the directory raises, no file is written. *)
Theorem collaborator_errors_end_the_export
    {Db Filters W : Type} (h : handler Db Filters W)
    (html_content : WebExporter.page_template) (db : Db)
    (output_path : string) (filters : option Filters) (doc_title : string)
    (e : exn) (paper : Paper) (papers : list Paper) (now : string)
    (w w1 w2 w3 : W) :
  (h _ (get_papers db filters) w = (inl e, w1) ->
   run h (MarkdownExporter.export_to_file db output_path filters doc_title) w
   = (inl e, w1, [Ev (get_papers db filters)])
   /\ run h (ObsidianExporter.export_to_file db output_path filters doc_title)
        w
      = (inl e, w1, [Ev (get_papers db filters)])
   /\ run h (WebExporter.export_to_file html_content db output_path filters
               doc_title) w
      = (inl e, w1, [Ev (get_papers db filters)]))
  /\ (h _ (get_papers db filters) w = (inr (paper :: papers), w1) ->
      h _ datetime_now w1 = (inr now, w2) ->
      h _ (mkdir_parent output_path) w2 = (inl e, w3) ->
      run h (MarkdownExporter.export_to_file db output_path filters doc_title)
        w
      = (inl e, w3,
         [Ev (get_papers db filters); Ev datetime_now;
          Ev (mkdir_parent output_path)])
      /\ run h (WebExporter.export_to_file html_content db output_path filters
                  doc_title) w
         = (inl e, w3,
            [Ev (get_papers db filters); Ev datetime_now;
             Ev (mkdir_parent output_path)]))
  /\ (h _ (get_papers db filters) w = (inr (paper :: papers), w1) ->
      h _ (mkdir_parent output_path) w1 = (inl e, w3) ->
      run h (ObsidianExporter.export_to_file db output_path filters doc_title)
        w
      = (inl e, w3,
         [Ev (get_papers db filters); Ev (mkdir_parent output_path)])).
Proof.
  split; [|split].
  - intros Hq.
    unfold MarkdownExporter.export_to_file, ObsidianExporter.export_to_file,
      WebExporter.export_to_file.
    cbn [bind run perform]. now rewrite Hq.
  - intros Hq Hn Hm.
    unfold MarkdownExporter.export_to_file, MarkdownExporter.generate_markdown,
      WebExporter.export_to_file, WebExporter.generate_html.
    cbn [bind run perform]. rewrite Hq. cbn [bind run perform].
    rewrite Hn. cbn [bind run perform]. now rewrite Hm.
  - intros Hq Hm. unfold ObsidianExporter.export_to_file.
    cbn [bind run perform]. rewrite Hq. cbn [bind run perform].
    now rewrite Hm.
Qed.

Lemma collaborator_errors_witness :
  run read_only_handle
    (ObsidianExporter.export_to_file (Sim.store world_one_paper) "out/p.md"
       None "T") world_one_paper
  = (inl (mkExn "PermissionError" "out/p.md"), world_one_paper,
     [Ev (get_papers (Sim.store world_one_paper) None);
      Ev (mkdir_parent "out/p.md")]).
Proof.
  apply (proj2 (proj2 (collaborator_errors_end_the_export read_only_handle
           Sim.empty_template (Sim.store world_one_paper) "out/p.md" None "T"
           (mkExn "PermissionError" "out/p.md") paper_a []
           "2024-01-01 00:00:00" world_one_paper world_one_paper
           world_one_paper world_one_paper))); reflexivity.
Defined.

(** ** The search box of the page *)

Lemma prefix_refl (s : string) : String.prefix s s = true.
Proof. rewrite <- (append_nil_r s) at 2. apply prefix_append. Qed.

Lemma includes_refl (s : string) : Page.includes s s = true.
Proof. destruct s; cbn [Page.includes]; now rewrite prefix_refl. Qed.

Lemma prefix_shorter (a b s : string) :
  String.prefix (a ++ b) s = true -> String.prefix a s = true.
Proof.
  revert s. induction a as [|x a IH]; intros s H; [apply prefix_empty|].
  destruct s as [|y s]; [discriminate H|].
  cbn [String.append] in H. rewrite prefix_cons in *.
  apply andb_true_iff in H as [Hx Ha]. rewrite Hx. now apply IH.
Qed.

Lemma includes_shorter (s a b : string) :
  Page.includes s (a ++ b) = true -> Page.includes s a = true.
Proof.
  induction s as [|x s IH]; cbn [Page.includes]; intros H.
  - rewrite orb_false_r in *. now apply prefix_shorter with b.
  - apply orb_true_iff in H as [H|H].
    + now rewrite (prefix_shorter a b _ H).
    + rewrite (IH H). apply orb_true_r.
Qed.

Lemma lower_idempotent (s : string) : Py.lower (Py.lower s) = Py.lower s.
Proof.
  induction s as [|c s IH]; [reflexivity|].
  cbn [Py.lower]. now rewrite lower_char_idempotent, IH.
Qed.

(** X12.  In the page, an empty search shows every paper, and searching for
    the exact title of a paper of the page, in any letter case, shows that
    paper. *)
Theorem search_finds_every_paper_by_its_title
    (papersData : list WebExporter.PaperDict) :
  Page.filterPapers papersData EmptyString = papersData
  /\ (forall paper query,
        In paper papersData ->
        Py.lower query = Py.lower (WebExporter.d_title paper) ->
        In paper (Page.filterPapers papersData query)).
Proof.
  split; [reflexivity|]. intros paper query Hin Hq.
  unfold Page.filterPapers. destruct query as [|c q]; [exact Hin|].
  apply filter_In. split; [exact Hin|].
  unfold Page.toLowerCase. rewrite Hq, includes_refl. reflexivity.
Qed.

Lemma search_by_title_witness :
  In (WebExporter.paper_to_dict paper_a)
    (Page.filterPapers (WebExporter.papers_data [paper_a]) "a").
Proof.
  apply (proj2 (search_finds_every_paper_by_its_title
                  (WebExporter.papers_data [paper_a]))
           (WebExporter.paper_to_dict paper_a) "a").
  - now left.
  - reflexivity.
Defined.

(** X13.  The search ignores the letter case of the query: two queries with
    the same lower-casing select the same papers. *)
Theorem search_ignores_query_case
    (papersData : list WebExporter.PaperDict) (query query' : string) :
  Py.lower query = Py.lower query' ->
  Page.filterPapers papersData query = Page.filterPapers papersData query'.
Proof.
  intros H. unfold Page.filterPapers, Page.toLowerCase.
  destruct query as [|c q], query' as [|c' q']; try discriminate H;
    [reflexivity|].
  now rewrite H.
Qed.

Lemma search_ignores_query_case_witness :
  Page.filterPapers (WebExporter.papers_data [paper_a]) "X"
  = Page.filterPapers (WebExporter.papers_data [paper_a]) "x".
Proof.
  apply (search_ignores_query_case (WebExporter.papers_data [paper_a]) "X" "x").
  reflexivity.
Defined.

(** X14.  Typing more never brings a paper back: every paper shown for a
    query that has been extended is also shown for the query before the
    extension. *)
Theorem longer_query_narrows_the_search
    (papersData : list WebExporter.PaperDict) (query more : string)
    (paper : WebExporter.PaperDict) :
  In paper (Page.filterPapers papersData (query ++ more)) ->
  In paper (Page.filterPapers papersData query).
Proof.
  unfold Page.filterPapers, Page.toLowerCase.
  destruct query as [|c q].
  - cbn [String.append]. destruct more; [tauto|].
    intros H. now apply filter_In in H.
  - cbn [String.append]. change (String c (q ++ more)) with (String c q ++ more).
    rewrite lower_append. intros H. apply filter_In in H as [Hin Hm].
    apply filter_In. split; [exact Hin|].
    apply orb_true_iff in Hm as [Hm|Hm];
      [apply orb_true_iff in Hm as [Hm|Hm];
       [apply orb_true_iff in Hm as [Hm|Hm]|]|].
    + now rewrite (includes_shorter _ _ _ Hm).
    + assert (E : existsb
                    (fun topic =>
                       Page.includes (Py.lower topic) (Py.lower (String c q)))
                    (WebExporter.d_topics paper) = true).
      { apply existsb_exists in Hm as (topic & Ht & Hi).
        apply existsb_exists. exists topic. split; [exact Ht|].
        now apply includes_shorter with (Py.lower more). }
      rewrite E. now rewrite orb_true_r.
    + rewrite (includes_shorter _ _ _ Hm). now rewrite orb_true_r.
    + rewrite (includes_shorter _ _ _ Hm). now rewrite orb_true_r.
Qed.

Lemma longer_query_witness :
  In (WebExporter.paper_to_dict alpha_paper)
    (Page.filterPapers alpha_page ("al" ++ "PHA p"))
  /\ In (WebExporter.paper_to_dict alpha_paper)
       (Page.filterPapers alpha_page "al").
Proof.
  assert (H : In (WebExporter.paper_to_dict alpha_paper)
                (Page.filterPapers alpha_page ("al" ++ "PHA p")))
    by (cbn; now left).
  split; [exact H|].
  exact (longer_query_narrows_the_search alpha_page "al" "PHA p"
           (WebExporter.paper_to_dict alpha_paper) H).
Defined.

(** ** The card of a paper *)

(** X15.  A paper whose summary has no labelled section, or no summary at
    all, is shown in the page as a card with its title and, if it has a
    URL, its link, and with no Topics, TL;DR or Summary block, whatever the
    state of the three check boxes. *)
Theorem unlabelled_paper_gets_a_bare_card
    (showTopics showTldr showSummary : bool) (t s : string)
    (u : option string) :
  (forall l, last_labelled l (sections_of s) = None) ->
  Page.createPaperCard showTopics showTldr showSummary
    (WebExporter.paper_to_dict (mkPaper t (Some s) u)) = bare_card t u
  /\ Page.createPaperCard showTopics showTldr showSummary
       (WebExporter.paper_to_dict (mkPaper t None u)) = bare_card t u.
Proof.
  intros H. rewrite web_paper_to_dict_fold, web_fold_last.
  rewrite (H Topics), (H TLDR), (H Summary).
  unfold Page.createPaperCard, bare_card, WebExporter.paper_to_dict.
  cbn [WebExporter.d_title WebExporter.d_pdf_url WebExporter.d_topics
       WebExporter.d_tldr WebExporter.d_summary title summary pdf_url
       Py.truthy List.length Nat.ltb Nat.leb andb].
  rewrite andb_false_r.
  destruct showTldr, showSummary; split; reflexivity.
Qed.

Lemma unlabelled_paper_card_witness :
  Page.createPaperCard true true true
    (WebExporter.paper_to_dict (mkPaper "P" (Some "plain text") None))
  = bare_card "P" None.
Proof.
  apply (unlabelled_paper_gets_a_bare_card true true true "P" "plain text" None).
  intros [| |]; reflexivity.
Defined.

(** ** The serialised page data *)

Lemma all_chars_append (p : ascii -> bool) (a b : string) :
  all_chars p (a ++ b) = (all_chars p a && all_chars p b)%bool.
Proof.
  induction a as [|x a IH]; [reflexivity|].
  cbn [String.append all_chars]. now rewrite IH, andb_assoc.
Qed.

Lemma all_chars_join (p : ascii -> bool) (sep : string) (parts : list string) :
  all_chars p sep = true ->
  Forall (fun part => all_chars p part = true) parts ->
  all_chars p (Py.join sep parts) = true.
Proof.
  intros Hs Hp. unfold Py.join. induction Hp as [|x l Hx Hl IH]; [reflexivity|].
  destruct l as [|y l]; [exact Hx|].
  change (String.concat sep (x :: y :: l))
    with (x ++ sep ++ String.concat sep (y :: l)).
  now rewrite !all_chars_append, Hx, Hs, IH.
Qed.

Lemma json_escape_char_printable (c : ascii) :
  all_chars printable (WebExporter.json_escape_char c) = true.
Proof. destruct c as [[] [] [] [] [] [] [] []]; reflexivity. Qed.

Lemma json_str_printable (s : string) :
  all_chars printable (WebExporter.json_str s) = true.
Proof.
  unfold WebExporter.json_str. rewrite !all_chars_append.
  assert (E : all_chars printable (WebExporter.json_escape s) = true).
  { induction s as [|c s IH]; [reflexivity|].
    cbn [WebExporter.json_escape].
    now rewrite all_chars_append, json_escape_char_printable, IH. }
  now rewrite E.
Qed.

(** X16.  The data embedded in the page is printable ASCII throughout,
    whatever the titles, URLs and summaries of the papers contain: no line
    break, no control character and no character above U+007E reaches the
    page through it. *)
Theorem page_data_is_printable_ascii (papers : list Paper) :
  all_chars printable (WebExporter.json_dumps (WebExporter.papers_data papers))
  = true.
Proof.
  unfold WebExporter.json_dumps, WebExporter.json_list.
  rewrite !all_chars_append. cbn [all_chars printable].
  rewrite all_chars_join; [reflexivity | reflexivity |].
  apply Forall_forall. intros x Hx.
  apply in_map_iff in Hx as (d & <- & _).
  unfold WebExporter.json_dict, WebExporter.json_key, WebExporter.json_list.
  rewrite !all_chars_append, !json_str_printable.
  assert (Eu : all_chars printable
                 (WebExporter.json_opt_str (WebExporter.d_pdf_url d)) = true)
    by (destruct (WebExporter.d_pdf_url d);
        [apply json_str_printable | reflexivity]).
  assert (Et : all_chars printable
                 (Py.join ", " (map WebExporter.json_str (WebExporter.d_topics d)))
               = true).
  { apply all_chars_join; [reflexivity|].
    apply Forall_forall. intros y Hy.
    apply in_map_iff in Hy as (topic & <- & _). apply json_str_printable. }
  rewrite Eu, Et. reflexivity.
Qed.

Lemma json_unescape_char (c : ascii) (rest : string) :
  json_unescape (WebExporter.json_escape_char c ++ rest)
  = String c (json_unescape rest).
Proof. destruct c as [[] [] [] [] [] [] [] []]; reflexivity. Qed.

(** X17.  Escaping loses nothing: decoding the escapes written for a string
    gives the string back, so two different titles, topics or summaries are
    never serialised alike. *)
Theorem json_escape_round_trip (s s' : string) :
  json_unescape (WebExporter.json_escape s) = s
  /\ (s <> s' -> WebExporter.json_str s <> WebExporter.json_str s').
Proof.
  assert (R : forall x, json_unescape (WebExporter.json_escape x) = x).
  { induction x as [|c x IH]; [reflexivity|].
    cbn [WebExporter.json_escape]. now rewrite json_unescape_char, IH. }
  split; [apply R|]. intros Hne E. apply Hne.
  unfold WebExporter.json_str in E.
  assert (E' : WebExporter.json_escape s ++ Py.dq
               = WebExporter.json_escape s' ++ Py.dq)
    by (cbn in E; congruence).
  rewrite <- (R s), <- (R s').
  assert (A : forall a b, a ++ Py.dq = b ++ Py.dq -> a = b).
  { induction a as [|x a IHa]; intros [|y b] H; try reflexivity.
    - destruct b; discriminate H.
    - destruct a; discriminate H.
    - cbn [String.append] in H. injection H as -> H. f_equal. now apply IHa. }
  now rewrite (A _ _ E').
Qed.

Lemma json_escape_round_trip_witness :
  Py.nl <> "\n" /\ WebExporter.json_str Py.nl <> WebExporter.json_str "\n".
Proof.
  assert (H : Py.nl <> "\n") by discriminate.
  split; [exact H|].
  exact (proj2 (json_escape_round_trip Py.nl "\n") H).
Defined.
